(** * Query-orchestration pipeline: a shallow embedding of the chatbot services

    The development follows the Python sources
    [app/services/agent_tools.py], [app/services/agent_planner.py],
    [app/services/agent_synthesizer.py] and [app/services/chatbot_service.py].

    Python values are modelled by the scalar type [value]; a function that
    may raise returns a [result]; code that talks to the relational store or
    to the callback receiver runs in the state-and-exception monad [M] over a
    [world] that records every call made to those collaborators.  The modules
    the services import but that are not part of the sources at hand
    ([rdb_service], [callback_client], [clients], [core.config], [schemas],
    the search function of [weaviate_store], and the [json] and [pydantic]
    libraries) are taken as fields of the record [env]. *)

From Stdlib Require Import ZArith String Ascii List.
From stdpp Require Import gmap strings list pretty.

Open Scope string_scope.
Open Scope list_scope.
Open Scope Z_scope.

(** ** Python values, exceptions and results *)

(** The scalars a JSON argument map or a result cell can hold. *)
Inductive value :=
| VNone
| VBool (b : bool)
| VInt (n : Z)
| VStr (s : string).

(** Subclasses of Python's [Exception] that the services distinguish by
    class; [Exception] stands for every other subclass.  The string is
    what [str(e)] returns. *)
Inductive exn :=
| TypeError (msg : string)
| IndexError (msg : string)
| JSONDecodeError (msg : string)
| ValidationError (msg : string)
| Exception (msg : string).

Definition exn_str (e : exn) : string :=
  match e with
  | TypeError m | IndexError m | JSONDecodeError m
  | ValidationError m | Exception m => m
  end.

Inductive result (A : Type) :=
| Ok (a : A)
| Raise (e : exn).
Arguments Ok {A} a.
Arguments Raise {A} e.

(** Line feed, the ["\n"] of the sources. *)
Definition LF : string := String "010"%char "".

(** [bool(v)] *)
Definition truthy (v : value) : bool :=
  match v with
  | VNone => false
  | VBool b => b
  | VInt n => negb (n =? 0)
  | VStr s => negb (bool_decide (s = ""))
  end.

(** [a or b] *)
Definition py_or (a b : value) : value := if truthy a then a else b.

(** [str(v)], also what an f-string renders. *)
Definition py_str (v : value) : string :=
  match v with
  | VNone => "None"
  | VBool true => "True"
  | VBool false => "False"
  | VInt n => pretty n
  | VStr s => s
  end.

(** [min(a, b)] for two arguments: [b] when [b < a], else [a].  A [bool] is
    an [int]; ordering a [str] or [None] against an [int] raises. *)
Definition as_int (v : value) : option Z :=
  match v with
  | VInt n => Some n
  | VBool b => Some (if b then 1 else 0)
  | _ => None
  end.

Definition py_min (a b : value) : result value :=
  match as_int a, as_int b with
  | Some x, Some y => Ok (if y <? x then b else a)
  | _, _ =>
      match a, b with
      | VStr s, VStr t => Ok (if String.ltb t s then b else a)
      | _, _ => Raise (TypeError "'<' not supported between instances")
      end
  end.

(** [truthy] on an optional string ([str | None]). *)
Definition nonempty (s : option string) : bool :=
  match s with
  | Some s => negb (bool_decide (s = ""))
  | None => false
  end.

(** [sep.join(l)] *)
Definition join (sep : string) (l : list string) : string := String.concat sep l.

(** ** Data model *)

(** A result row: a [dict] from column name to cell, in column order. *)
Definition row := list (string * value).

(** [r.get(h, d)] *)
Fixpoint row_get (r : row) (h : string) (d : value) : value :=
  match r with
  | [] => d
  | (k, v) :: r' => if bool_decide (k = h) then v else row_get r' h d
  end.

(** [ChatHistoryMessage]: one turn of the conversation. *)
Record ChatHistoryMessage := {
  role : string;
  content : string
}.

(** The callback body: the keys a payload dictionary may carry; an absent
    key is [None]. *)
Record payload := {
  messageId : string;
  chunk : option string;
  done : bool;
  success : bool;
  errorMessage : option string
}.

(** ** The collaborators *)

(** Calls into [rdb_service]: a statement run on a connection of
    [get_engine()], and its two query helpers. *)
Inductive rdb_call :=
| Execute (sql : string) (params : gmap string value)
| EmployeeContactByName (name com_id : value)
| DbWithLlm (question : string) (com_id emp_id : option string).

(** What the services have done to the outside so far: the calls into the
    relational store, oldest first, and the callback posts with their
    outcome ([true] when [post_with_retry] returned). *)
Record world := {
  rdb_log : list rdb_call;
  posts : list (payload * bool)
}.

(** A request to [openai_client.chat.completions.create]; [temperature]
    holds the literal written in the source. *)
Record ChatRequest := {
  model : string;
  messages : list (string * string);
  temperature : string;
  stream : bool
}.

Inductive Mode := Rdb | Rag | Hybrid.

#[global] Instance Mode_eq_dec : EqDecision Mode.
Proof. solve_decision. Defined.

Record RagTask := {
  query : string;
  top_k : Z
}.

Record RdbTask := {
  name : string;
  args : gmap string value
}.

Record QueryPlan := {
  mode : Mode;
  rag_tasks : list RagTask;
  rdb_tasks : list RdbTask;
  answer_style : option string
}.

(** The environment of a request.  Every answer of the relational store and
    of the callback receiver may depend on the calls made before it. *)
Record env (json : Type) := {
  (* app.core.config.settings *)
  RDB_MODEL : string;
  SUM_MODEL : string;
  (* app.services.rdb_service *)
  rdb : list rdb_call -> rdb_call -> result (list row);
  (* app.clients.openai_client: [resp.choices[0].message.content] of a
     plain call; of a streaming call the [delta.content] of each chunk and
     the exception that ends the iteration, if any *)
  chat_create : ChatRequest -> result (option string);
  chat_stream : ChatRequest -> result (list (option string) * option exn);
  (* json.loads and the QueryPlan constructor of pydantic *)
  json_loads : string -> result json;
  QueryPlan_init : json -> result QueryPlan;
  (* app.services.weaviate_store.search_prov_chunks *)
  search_prov_chunks : string -> Z -> result (list string);
  (* app.services.callback_client *)
  validate_callback_url : string -> result string;
  post_with_retry : list (payload * bool) -> string -> string -> payload -> result unit
}.
Arguments RDB_MODEL {json} _.
Arguments SUM_MODEL {json} _.
Arguments rdb {json} _ _ _.
Arguments chat_create {json} _ _.
Arguments chat_stream {json} _ _.
Arguments json_loads {json} _ _.
Arguments QueryPlan_init {json} _ _.
Arguments search_prov_chunks {json} _ _ _.
Arguments validate_callback_url {json} _ _.
Arguments post_with_retry {json} _ _ _ _ _.

(** ** The state-and-exception monad *)

Definition M (A : Type) : Type := world -> result A * world.

Definition ret {A} (a : A) : M A := fun w => (Ok a, w).
Definition raise {A} (e : exn) : M A := fun w => (Raise e, w).
Definition bind {A B} (m : M A) (k : A -> M B) : M B :=
  fun w =>
    match m w with
    | (Ok a, w') => k a w'
    | (Raise e, w') => (Raise e, w')
    end.
(** [try: m  except Exception as e: h e] *)
Definition try_except {A} (m : M A) (h : exn -> M A) : M A :=
  fun w =>
    match m w with
    | (Ok a, w') => (Ok a, w')
    | (Raise e, w') => h e w'
    end.
Definition lift {A} (r : result A) : M A := fun w => (r, w).

Notation "x <- c1 ; c2" := (bind c1 (fun x => c2))
  (at level 20, c1 at level 100, c2 at level 200, only parsing).

(** ** app/services/agent_tools.py *)

Module agent_tools.

(** A Python function as the executor sees it: its parameters in order with
    their defaults, the further local names of its code object, and its body
    over the bound arguments. *)
Record pyfunc := {
  fn_params : list (string * option value);
  fn_locals : list string;
  fn_body : (string -> value) -> M (list row)
}.

(** [fn.__code__.co_varnames]: the parameters, then the other locals (the
    variable of a comprehension belongs to them from Python 3.12 on; no tool
    has a local named [com_id] or [emp_id]). *)
Definition co_varnames (fn : pyfunc) : list string :=
  (fn_params fn).*1 ++ fn_locals fn.

Definition param_default (fn : pyfunc) (p : string) : option value :=
  match list_find (fun q => bool_decide (q.1 = p)) (fn_params fn) with
  | Some (_, (_, d)) => d
  | None => None
  end.

(** Binding a keyword dictionary to the signature of [fn]: every keyword is
    a declared parameter, every parameter without default is given, and a
    parameter that is not given takes its default. *)
Definition keywords_declared (fn : pyfunc) (kwargs : gmap string value) : bool :=
  forallb (fun k => bool_decide (k ∈ (fn_params fn).*1)) (map_to_list kwargs).*1.

Definition required_given (fn : pyfunc) (kwargs : gmap string value) : bool :=
  forallb (fun p => match kwargs !! p.1, p.2 with
                    | None, None => false
                    | _, _ => true
                    end) (fn_params fn).

Definition bound_args (fn : pyfunc) (kwargs : gmap string value) (p : string) : value :=
  match kwargs !! p with
  | Some v => v
  | None => default VNone (param_default fn p)
  end.

(** The call of [fn] on the unpacked dictionary [kwargs]: when the binding
    fails, [TypeError] is raised before the body runs. *)
Definition py_call (fn : pyfunc) (kwargs : gmap string value) : M (list row) :=
  if negb (keywords_declared fn kwargs)
  then raise (TypeError "got an unexpected keyword argument")
  else if negb (required_given fn kwargs)
  then raise (TypeError "missing a required argument")
  else fn_body fn (bound_args fn kwargs).

(** [d.setdefault(k, v)] *)
Definition setdefault (k : string) (v : value) (d : gmap string value)
  : gmap string value :=
  match d !! k with
  | Some _ => d
  | None => <[k := v]> d
  end.

Definition _limit_clause (limit default : value) : result string :=
  let lim := py_or limit default in
  match py_min lim default with
  | Ok m => Ok (" LIMIT " +:+ py_str m)
  | Raise e => Raise e
  end.

Section tools.
Context {json : Type} (E : env json).

(** A call into [rdb_service]; the call is recorded whether or not it
    raises.  [conn.execute(text(sql), params).mappings().all()] followed by
    [[dict(r) for r in rows]] is [call_rdb (Execute sql params)]. *)
Definition call_rdb (c : rdb_call) : M (list row) :=
  fun w => (rdb E (rdb_log w) c,
            {| rdb_log := rdb_log w ++ [c]; posts := posts w |}).

Definition get_my_todos (emp_id com_id status limit : value) : M (list row) :=
  let sql :=
    "SELECT todo_no, title, is_done, created_at, updated_at " +:+
    "FROM todo_list WHERE com_id = :com_id AND emp_id = :emp_id" in
  let params : gmap string value :=
    <["com_id" := com_id]> (<["emp_id" := emp_id]> ∅) in
  let '(sql, params) :=
    if truthy status
    then (sql +:+ " AND is_done = :status", <["status" := status]> params)
    else (sql, params) in
  lc <- lift (_limit_clause limit (VInt 50)) ;
  call_rdb (Execute (sql +:+ lc) params).

Definition get_my_mails (emp_id com_id unread_only limit : value) : M (list row) :=
  let sql :=
    "SELECT mail_no, title, created_at, sender_id " +:+
    "FROM mail WHERE sender_id = :emp_id" in
  let params : gmap string value := <["emp_id" := emp_id]> ∅ in
  lc <- lift (_limit_clause limit (VInt 50)) ;
  call_rdb (Execute (sql +:+ lc) params).

Definition get_my_attendance (emp_id com_id start end_ : value) : M (list row) :=
  let sql :=
    "SELECT day, type, created_at FROM attendance WHERE com_id = :com_id AND emp_id = :emp_id" in
  let params : gmap string value :=
    <["com_id" := com_id]> (<["emp_id" := emp_id]> ∅) in
  let '(sql, params) :=
    if truthy start
    then (sql +:+ " AND day >= :start", <["start" := start]> params)
    else (sql, params) in
  let '(sql, params) :=
    if truthy end_
    then (sql +:+ " AND day <= :end", <["end" := end_]> params)
    else (sql, params) in
  lc <- lift (_limit_clause VNone (VInt 50)) ;
  call_rdb (Execute (sql +:+ lc) params).

Definition get_meetings_for_me (emp_id com_id start end_ : value) : M (list row) :=
  let sql :=
    "SELECT m.meet_no, m.title, m.started_at, m.status " +:+
    "FROM meeting m JOIN meeting_emp me ON m.meet_no = me.meet_no " +:+
    "WHERE m.com_id = :com_id AND me.emp_id = :emp_id" in
  let params : gmap string value :=
    <["com_id" := com_id]> (<["emp_id" := emp_id]> ∅) in
  let '(sql, params) :=
    if truthy start
    then (sql +:+ " AND m.started_at >= :start", <["start" := start]> params)
    else (sql, params) in
  let '(sql, params) :=
    if truthy end_
    then (sql +:+ " AND m.started_at <= :end", <["end" := end_]> params)
    else (sql, params) in
  lc <- lift (_limit_clause VNone (VInt 50)) ;
  call_rdb (Execute (sql +:+ lc) params).

Definition get_meeting_room_reservations (com_id limit : value) : M (list row) :=
  let sql :=
    "SELECT mr.room_no, r.room_name, mr.started_at, mr.ended_at, mr.resv_emp " +:+
    "FROM meeting_room_reservation mr " +:+
    "LEFT JOIN meeting_room r ON mr.room_no = r.room_no " +:+
    "WHERE mr.com_id = :com_id " +:+
    "ORDER BY mr.started_at DESC" in
  let params : gmap string value := <["com_id" := com_id]> ∅ in
  lc <- lift (_limit_clause limit (VInt 50)) ;
  call_rdb (Execute (sql +:+ lc) params).

Definition get_corporate_car_reservations (com_id limit : value) : M (list row) :=
  let sql :=
    "SELECT cr.car_no, c.car_name, cr.started_at, cr.ended_at, cr.resv_emp " +:+
    "FROM corporate_car_reservation cr " +:+
    "LEFT JOIN corporate_car c ON cr.car_no = c.car_no " +:+
    "WHERE cr.com_id = :com_id " +:+
    "ORDER BY cr.started_at DESC" in
  let params : gmap string value := <["com_id" := com_id]> ∅ in
  lc <- lift (_limit_clause limit (VInt 50)) ;
  call_rdb (Execute (sql +:+ lc) params).

Definition get_shared_equipment_reservations (com_id limit : value) : M (list row) :=
  let sql :=
    "SELECT sr.eq_no, e.eq_name, sr.started_at, sr.ended_at, sr.resv_emp " +:+
    "FROM shared_equipment_reservation sr " +:+
    "LEFT JOIN shared_equipment e ON sr.eq_no = e.eq_no " +:+
    "WHERE sr.com_id = :com_id " +:+
    "ORDER BY sr.started_at DESC" in
  let params : gmap string value := <["com_id" := com_id]> ∅ in
  lc <- lift (_limit_clause limit (VInt 50)) ;
  call_rdb (Execute (sql +:+ lc) params).

Definition search_employee_by_name (com_id name limit : value) : M (list row) :=
  call_rdb (EmployeeContactByName name com_id).

Definition get_employee_contact (com_id emp_id : value) : M (list row) :=
  let sql :=
    "SELECT emp_name, email, phone, work_phone, emp_id, dep_no, pos_no " +:+
    "FROM employee WHERE com_id = :com_id AND emp_id = :emp_id LIMIT 5" in
  call_rdb (Execute sql (<["com_id" := com_id]> (<["emp_id" := emp_id]> ∅))).

Definition search_board_posts (com_id keyword limit : value) : M (list row) :=
  let sql :=
    "SELECT board_no, title, created_at, emp_id " +:+
    "FROM board WHERE com_id = :com_id AND (title LIKE :kw OR contents LIKE :kw)" in
  let params : gmap string value :=
    <["com_id" := com_id]>
      (<["kw" := VStr ("%" +:+ py_str keyword +:+ "%")]> ∅) in
  lc <- lift (_limit_clause limit (VInt 50)) ;
  call_rdb (Execute (sql +:+ lc) params).

Definition get_approval_lines (com_id emp_id limit : value) : M (list row) :=
  let sql :=
    "SELECT apprl_no, doc_no, appr_stat, ended_at " +:+
    "FROM approval_line WHERE com_id = :com_id AND emp_id = :emp_id " +:+
    "ORDER BY ended_at DESC" in
  let params : gmap string value :=
    <["com_id" := com_id]> (<["emp_id" := emp_id]> ∅) in
  lc <- lift (_limit_clause limit (VInt 50)) ;
  call_rdb (Execute (sql +:+ lc) params).

(** The code objects of the tools: signature, locals, body. *)
Definition req (p : string) : string * option value := (p, None).
Definition opt (p : string) (d : value) : string * option value := (p, Some d).

Definition fn_get_my_todos : pyfunc :=
  {| fn_params := [req "emp_id"; req "com_id"; opt "status" VNone; opt "limit" VNone];
     fn_locals := ["sql"; "params"; "conn"; "rows"];
     fn_body a := get_my_todos (a "emp_id") (a "com_id") (a "status") (a "limit") |}.
Definition fn_get_my_mails : pyfunc :=
  {| fn_params := [req "emp_id"; req "com_id"; opt "unread_only" (VBool false);
                   opt "limit" VNone];
     fn_locals := ["sql"; "params"; "conn"; "rows"];
     fn_body a := get_my_mails (a "emp_id") (a "com_id") (a "unread_only") (a "limit") |}.
Definition fn_get_my_attendance : pyfunc :=
  {| fn_params := [req "emp_id"; req "com_id"; opt "start" VNone; opt "end" VNone];
     fn_locals := ["sql"; "params"; "conn"; "rows"];
     fn_body a := get_my_attendance (a "emp_id") (a "com_id") (a "start") (a "end") |}.
Definition fn_get_meetings_for_me : pyfunc :=
  {| fn_params := [req "emp_id"; req "com_id"; opt "start" VNone; opt "end" VNone];
     fn_locals := ["sql"; "params"; "conn"; "rows"];
     fn_body a := get_meetings_for_me (a "emp_id") (a "com_id") (a "start") (a "end") |}.
Definition fn_get_meeting_room_reservations : pyfunc :=
  {| fn_params := [req "com_id"; opt "limit" VNone];
     fn_locals := ["sql"; "params"; "conn"; "rows"];
     fn_body a := get_meeting_room_reservations (a "com_id") (a "limit") |}.
Definition fn_get_corporate_car_reservations : pyfunc :=
  {| fn_params := [req "com_id"; opt "limit" VNone];
     fn_locals := ["sql"; "params"; "conn"; "rows"];
     fn_body a := get_corporate_car_reservations (a "com_id") (a "limit") |}.
Definition fn_get_shared_equipment_reservations : pyfunc :=
  {| fn_params := [req "com_id"; opt "limit" VNone];
     fn_locals := ["sql"; "params"; "conn"; "rows"];
     fn_body a := get_shared_equipment_reservations (a "com_id") (a "limit") |}.
Definition fn_search_employee_by_name : pyfunc :=
  {| fn_params := [req "com_id"; req "name"; opt "limit" VNone];
     fn_locals := [];
     fn_body a := search_employee_by_name (a "com_id") (a "name") (a "limit") |}.
Definition fn_get_employee_contact : pyfunc :=
  {| fn_params := [req "com_id"; req "emp_id"];
     fn_locals := ["engine"; "sql"; "conn"; "rows"];
     fn_body a := get_employee_contact (a "com_id") (a "emp_id") |}.
Definition fn_search_board_posts : pyfunc :=
  {| fn_params := [req "com_id"; req "keyword"; opt "limit" VNone];
     fn_locals := ["sql"; "params"; "conn"; "rows"];
     fn_body a := search_board_posts (a "com_id") (a "keyword") (a "limit") |}.
Definition fn_get_approval_lines : pyfunc :=
  {| fn_params := [req "com_id"; req "emp_id"; opt "limit" VNone];
     fn_locals := ["sql"; "params"; "conn"; "rows"];
     fn_body a := get_approval_lines (a "com_id") (a "emp_id") (a "limit") |}.

Definition TOOL_REGISTRY_items : list (string * pyfunc) :=
  [ ("get_my_todos", fn_get_my_todos);
    ("get_my_mails", fn_get_my_mails);
    ("get_my_attendance", fn_get_my_attendance);
    ("get_meetings_for_me", fn_get_meetings_for_me);
    ("get_meeting_rooms_availability", fn_get_meeting_room_reservations);
    ("get_corporate_car_availability", fn_get_corporate_car_reservations);
    ("get_shared_equipment_availability", fn_get_shared_equipment_reservations);
    ("search_employee_by_name", fn_search_employee_by_name);
    ("get_employee_contact", fn_get_employee_contact);
    ("search_board_posts", fn_search_board_posts);
    ("get_approval_lines", fn_get_approval_lines) ].

Definition TOOL_REGISTRY : gmap string pyfunc := list_to_map TOOL_REGISTRY_items.

(** Lines 218-221: the tenant's identifiers enter the argument map by
    [setdefault], each only when the function has a variable of that name
    and the identifier is truthy. *)
Definition inject_tenant (fn : pyfunc) (args : gmap string value)
    (com_id emp_id : option string) : gmap string value :=
  let args :=
    match com_id with
    | Some c =>
        if bool_decide ("com_id" ∈ co_varnames fn) && nonempty com_id
        then setdefault "com_id" (VStr c) args else args
    | None => args
    end in
  match emp_id with
  | Some e =>
      if bool_decide ("emp_id" ∈ co_varnames fn) && nonempty emp_id
      then setdefault "emp_id" (VStr e) args else args
  | None => args
  end.

Definition summary_line (name : string) (rows : list row) : string :=
  name +:+ ": " +:+ pretty (length rows) +:+ " rows".

(** The body of the [for t in tasks] loop on the two accumulators
    [all_rows] and [summaries]. *)
Definition run_task (com_id emp_id : option string) (t : RdbTask)
    (acc : list row * list string) : M (list row * list string) :=
  match TOOL_REGISTRY !! name t with
  | None => ret acc
  | Some fn =>
      try_except
        (rows <- py_call fn (inject_tenant fn (args t) com_id emp_id) ;
         ret (acc.1 ++ rows, acc.2 ++ [summary_line (name t) rows]))
        (fun e => ret acc)
  end.

Fixpoint for_tasks (com_id emp_id : option string) (tasks : list RdbTask)
    (acc : list row * list string) : M (list row * list string) :=
  match tasks with
  | [] => ret acc
  | t :: tasks' =>
      acc' <- run_task com_id emp_id t acc ;
      for_tasks com_id emp_id tasks' acc'
  end.

Definition execute_rdb_tasks (tasks : list RdbTask) (com_id emp_id : option string)
  : M (list row * list string) :=
  for_tasks com_id emp_id tasks ([], []).

End tools.

(** [rows[:max_rows]] *)
Definition slice_to {A} (l : list A) (n : Z) : list A :=
  if n <? 0 then take (Z.to_nat (Z.of_nat (length l) + n)) l
  else take (Z.to_nat n) l.

Definition format_line (headers : list string) (r : row) : string :=
  join " | " (map (fun h => py_str (row_get r h (VStr ""))) headers).

Definition format_rows (rows : list row) (max_rows : Z) : result string :=
  match rows with
  | [] => Ok ""
  | _ =>
      let sample := slice_to rows max_rows in
      match sample with
      | [] => Raise (IndexError "list index out of range")
      | r0 :: _ =>
          let headers := r0.*1 in
          let lines := [join " | " headers] ++ map (format_line headers) sample in
          let lines :=
            if max_rows <? Z.of_nat (length rows)
            then lines ++ ["...(" +:+ pretty (Z.of_nat (length rows) - max_rows) +:+ " more)"]
            else lines in
          Ok (join LF lines)
      end
  end.

End agent_tools.

(** ** String helpers of the three services *)

Definition DQ : string := String "034"%char "".

Definition ascii_lower (c : ascii) : ascii :=
  let n := nat_of_ascii c in
  if ((65 <=? n) && (n <=? 90))%nat then ascii_of_nat (n + 32) else c.

(** [s.lower()], on the ASCII letters. *)
Fixpoint lower (s : string) : string :=
  match s with
  | EmptyString => EmptyString
  | String c s' => String (ascii_lower c) (lower s')
  end.

(** [s.startswith(p)] *)
Definition startswith (s p : string) : bool := String.prefix p s.

(** [s or d] on strings. *)
Definition str_or (s d : string) : string :=
  if bool_decide (s = "") then d else s.

Definition is_space (c : ascii) : bool :=
  let n := nat_of_ascii c in
  ((n =? 32) || ((9 <=? n) && (n <=? 13)) || ((28 <=? n) && (n <=? 31)))%nat.

Fixpoint lstrip (s : string) : string :=
  match s with
  | EmptyString => EmptyString
  | String c s' => if is_space c then lstrip s' else s
  end.

Fixpoint rstrip (s : string) : string :=
  match s with
  | EmptyString => EmptyString
  | String c s' =>
      match rstrip s' with
      | EmptyString => if is_space c then EmptyString else String c EmptyString
      | t => String c t
      end
  end.

(** [s.strip()], with the ASCII white space. *)
Definition strip (s : string) : string := rstrip (lstrip s).

(** [s.split("\n\n")]: [cur] is the piece being read. *)
Fixpoint split_blank (cur s : string) : list string :=
  match s with
  | EmptyString => [cur]
  | String "010"%char (String "010"%char rest) => cur :: split_blank "" rest
  | String c s' => split_blank (cur +:+ String c "") s'
  end.

(** ** app/services/agent_planner.py *)

Module agent_planner.

Fixpoint history_lines (history : list ChatHistoryMessage) : list string :=
  match history with
  | [] => []
  | m :: history' =>
      if bool_decide (content m = "") then history_lines history'
      else
        let prefix := if startswith (lower (role m)) "user" then "User" else "Assistant" in
        (prefix +:+ ": " +:+ content m) :: history_lines history'
  end.

Definition _history_to_text (history : list ChatHistoryMessage) : string :=
  match history with
  | [] => ""
  | _ => join LF (history_lines history)
  end.

Definition system_prompt : string :=
  "너는 사내 챗봇 플래너다. 질문을 해결하기 위해 DB 조회(RDB), 규정 검색(RAG), 또는 둘 다(Hybrid) 계획을 JSON으로만 출력한다." +:+ LF +:+
  "- mode: rdb | rag | hybrid" +:+ LF +:+
  "- rag_tasks: [{" +:+ DQ +:+ "query" +:+ DQ +:+ ": " +:+ DQ +:+ "..." +:+ DQ +:+ ", "
     +:+ DQ +:+ "top_k" +:+ DQ +:+ ": 5}]" +:+ LF +:+
  "- rdb_tasks: [{" +:+ DQ +:+ "name" +:+ DQ +:+ ": " +:+ DQ +:+ "task_name" +:+ DQ +:+ ", "
     +:+ DQ +:+ "args" +:+ DQ +:+ ": {...}}]" +:+ LF +:+
  "- answer_style: 요약/비교/추천 등 힌트" +:+ LF +:+
  "규정/정책/조항 해석은 rag, 직원/회사 데이터/개수/목록/일정/예약/연락처는 rdb, 둘 다 필요하면 hybrid." +:+ LF +:+
  "JSON만 출력하고, 설명은 쓰지 마.".

Definition user_block (question : string) (history : list ChatHistoryMessage) : string :=
  let history_text := _history_to_text history in
  if negb (bool_decide (history_text = ""))
  then "[이전 대화]" +:+ LF +:+ history_text +:+ LF +:+ LF +:+ "[현재 질문]" +:+ LF +:+ question
  else question.

(** [QueryPlan(mode="rag", rag_tasks=[RagTask(query=question)])]; the
    other fields take the defaults of the class, [top_k] that of
    [RagTask]. *)
Definition default_plan (question : string) : QueryPlan :=
  {| mode := Rag;
     rag_tasks := [ {| query := question; top_k := 5 |} ];
     rdb_tasks := [];
     answer_style := None |}.

Section planner.
Context {json : Type} (E : env json).

Definition planner_request (question : string) (history : list ChatHistoryMessage)
  : ChatRequest :=
  {| model := RDB_MODEL E;
     messages := [ ("system", system_prompt); ("user", user_block question history) ];
     temperature := "0";
     stream := false |}.

(** The body of the [try] block. *)
Definition plan_attempt (question : string) (history : list ChatHistoryMessage)
  : result QueryPlan :=
  match chat_create E (planner_request question history) with
  | Raise e => Raise e
  | Ok c =>
      let raw := str_or (default "" c) "{}" in
      match json_loads E raw with
      | Raise e => Raise e
      | Ok plan_dict => QueryPlan_init E plan_dict
      end
  end.

Definition plan_query (question : string) (history : list ChatHistoryMessage)
    (emp_id com_id : option string) : result QueryPlan :=
  match plan_attempt question history with
  | Ok plan => Ok plan
  | Raise (ValidationError _) | Raise (JSONDecodeError _) =>
      Ok (default_plan question)
  | Raise _ =>
      Ok (default_plan question)
  end.

End planner.
End agent_planner.

(** ** app/services/agent_synthesizer.py *)

Module agent_synthesizer.

Definition history_line (m : ChatHistoryMessage) : string :=
  let prefix := if startswith (lower (role m)) "user" then "User" else "Assistant" in
  prefix +:+ ": " +:+ content m.

Definition _history_to_text (history : list ChatHistoryMessage) : string :=
  match history with
  | [] => ""
  | _ => join LF (map history_line history)
  end.

Definition system_content : string :=
  "너는 사내 전자결재/그룹웨어 챗봇이다. DB 결과는 사실, 규정 근거는 정책이다. " +:+
  "출처가 없는 내용은 추측하지 말고, 필요시 근거/데이터 부족을 명시한다.".

Definition grounding_instructions : string :=
  "아래 DB 결과와 규정 근거를 활용해 한국어로 간결하고 정확하게 답변하세요. " +:+
  "DB는 사실 데이터, RAG는 규정/정책 근거입니다. 정보가 없으면 모른다고 말하세요. ".

Definition style_hint (answer_style : option string) : string :=
  if nonempty answer_style then "답변 스타일: " +:+ default "" answer_style else "".

(** The parenthesised expression bound to [user_prompt].  Adjacent string
    literals are joined before the conditional expression is formed, so the
    condition chooses between the literals written before [if] and those
    written after [else]. *)
Definition user_prompt (question : string) (history : list ChatHistoryMessage)
    (db_text rag_text : string) (answer_style : option string) : string :=
  let history_text := _history_to_text history in
  if negb (bool_decide (history_text = ""))
  then
    grounding_instructions +:+
    style_hint answer_style +:+ LF +:+ LF +:+
    "[이전 대화]" +:+ LF +:+ history_text +:+ LF +:+ LF
  else
    "" +:+
    "[질문]" +:+ LF +:+ question +:+ LF +:+ LF +:+
    "[DB 결과]" +:+ LF +:+ str_or db_text "(없음)" +:+ LF +:+ LF +:+
    "[규정 근거]" +:+ LF +:+ str_or rag_text "(없음)".

(** The sequence a generator yields, and the exception that ends it if it
    does not return. *)
Definition generator : Type := list string * option exn.

(** The paragraphs the [except] branch yields from the full answer. *)
Definition paragraphs (full : string) : list string :=
  omap (fun para =>
          let part := strip para in
          if negb (bool_decide (part = "")) then Some (part +:+ LF) else None)
       (split_blank "" full).

(** [if delta: yield delta] over the chunks received. *)
Definition deltas (cs : list (option string)) : list string :=
  omap (fun d => match d with
                 | Some s => if bool_decide (s = "") then None else Some s
                 | None => None
                 end) cs.

Section synthesizer.
Context {json : Type} (E : env json).

Definition synth_request (prompt : string) (streaming : bool) : ChatRequest :=
  {| model := SUM_MODEL E;
     messages := [ ("system", system_content); ("user", prompt) ];
     temperature := "0.2";
     stream := streaming |}.

(** The [except Exception] branch: one plain call, re-chunked. *)
Definition fallback (prompt : string) : generator :=
  match chat_create E (synth_request prompt false) with
  | Raise e => ([], Some e)
  | Ok c => (paragraphs (default "" c), None)
  end.

(** The [try] block holds both the streaming call and the loop over its
    chunks, so the [except] branch runs when the call raises and also when
    the iteration raises after some chunks were yielded. *)
Definition stream_final_answer (question : string) (history : list ChatHistoryMessage)
    (db_text rag_text : string) (answer_style : option string) (mode : Mode)
  : generator :=
  let prompt := user_prompt question history db_text rag_text answer_style in
  match chat_stream E (synth_request prompt true) with
  | Raise _ => fallback prompt
  | Ok (cs, None) => (deltas cs, None)
  | Ok (cs, Some _) =>
      let '(ps, e) := fallback prompt in
      (deltas cs ++ ps, e)
  end.

End synthesizer.
End agent_synthesizer.

(** ** app/services/chatbot_service.py *)

Module chatbot_service.

(** [ChatbotRunRequest]; its [messageId] is the field [reqMessageId]. *)
Record ChatbotRunRequest := {
  question : string;
  history : list ChatHistoryMessage;
  empId : option string;
  comId : option string;
  reqMessageId : string;
  callbackUrl : string;
  callbackKey : string
}.

Definition refusal_msg : string := "근거와 데이터가 부족해 답변할 수 없습니다." +:+ LF.

Definition chunk_payload (mid delta : string) : payload :=
  {| messageId := mid; chunk := Some delta; done := false; success := true;
     errorMessage := None |}.

Definition done_payload (mid : string) : payload :=
  {| messageId := mid; chunk := None; done := true; success := true;
     errorMessage := None |}.

Definition error_payload (mid err_msg : string) : payload :=
  {| messageId := mid; chunk := None; done := true; success := false;
     errorMessage := Some err_msg |}.

Definition is_nil {A} (l : list A) : bool :=
  match l with [] => true | _ => false end.

Definition mode_in (m : Mode) (a b : Mode) : bool :=
  bool_decide (m = a) || bool_decide (m = b).

Section chatbot.
Context {json : Type} (E : env json).

(** One call of [post_with_retry]; the post is recorded with its outcome.
    A post that raises counts as not delivered. *)
Definition post (url key : string) (p : payload) : M unit :=
  fun w =>
    let r := post_with_retry E (posts w) url key p in
    (r, {| rdb_log := rdb_log w;
           posts := posts w ++ [(p, match r with Ok _ => true | Raise _ => false end)] |}).

Definition query_db_with_llm (question : string) (com_id emp_id : option string)
  : M (list row) :=
  agent_tools.call_rdb E (DbWithLlm question com_id emp_id).

(** The loop of [_run_rag_tasks] on the accumulator [contexts]. *)
Fixpoint for_rag_tasks (tasks : list RagTask) (contexts : list string) : list string :=
  match tasks with
  | [] => contexts
  | t :: tasks' =>
      match search_prov_chunks E (query t) (top_k t) with
      | Ok res => for_rag_tasks tasks' (contexts ++ res)
      | Raise _ => for_rag_tasks tasks' contexts
      end
  end.

Definition _run_rag_tasks (rag_tasks : list RagTask) (question : string) : list string :=
  let tasks := if is_nil rag_tasks then [ {| query := question; top_k := 5 |} ] else rag_tasks in
  for_rag_tasks tasks [].

(** Lines 53-81 of [run_chatbot]: the evidence of the plan, with the
    fall-backs, rendered to [db_text] and [rag_text]. *)
Definition gather (req : ChatbotRunRequest) (plan : QueryPlan) : M (string * string) :=
  db_rows <-
    (if mode_in (mode plan) Rdb Hybrid then
       r <- agent_tools.execute_rdb_tasks E (rdb_tasks plan) (comId req) (empId req) ;
       let rows := r.1 in
       let db_rows := [] ++ rows in
       if is_nil rows && bool_decide (mode plan = Rdb)
       then try_except (query_db_with_llm (question req) (comId req) (empId req))
                       (fun _ => ret db_rows)
       else ret db_rows
     else ret []) ;
  let rag_contexts :=
    if mode_in (mode plan) Rag Hybrid
    then [] ++ _run_rag_tasks (rag_tasks plan) (question req)
    else [] in
  db_rows <-
    (if is_nil db_rows && bool_decide (mode plan = Hybrid)
     then try_except (query_db_with_llm (question req) (comId req) (empId req))
                     (fun _ => ret db_rows)
     else ret db_rows) ;
  let rag_contexts :=
    if is_nil rag_contexts && bool_decide (mode plan = Hybrid)
    then _run_rag_tasks [] (question req)
    else rag_contexts in
  db_text <- lift (agent_tools.format_rows db_rows 10) ;
  let rag_text := join LF rag_contexts in
  ret (db_text, rag_text).

(** [for delta in stream: post_with_retry(...)]: the generator is consumed
    one chunk at a time; its exception, if any, surfaces after the last
    chunk it yielded has been posted. *)
Fixpoint for_deltas (url key mid : string) (chunks : list string) (ending : option exn)
  : M unit :=
  match chunks with
  | [] => match ending with
          | None => ret tt
          | Some e => raise e
          end
  | delta :: chunks' =>
      _ <- post url key (chunk_payload mid delta) ;
      for_deltas url key mid chunks' ending
  end.

(** The body of the [try] block of [run_chatbot]; lines 47-48, 51 and 60
    only print and are left out. *)
Definition run_chatbot_body (req : ChatbotRunRequest) (callback_url : string) : M unit :=
  plan <- lift (agent_planner.plan_query E (question req) (history req)
                  (empId req) (comId req)) ;
  texts <- gather req plan ;
  let db_text := texts.1 in
  let rag_text := texts.2 in
  if bool_decide (db_text = "") && bool_decide (rag_text = "")
  then
    _ <- post callback_url (callbackKey req)
           (chunk_payload (reqMessageId req) refusal_msg) ;
    post callback_url (callbackKey req) (done_payload (reqMessageId req))
  else
    let stream :=
      agent_synthesizer.stream_final_answer E (question req) (history req)
        db_text rag_text (answer_style plan) (mode plan) in
    _ <- for_deltas callback_url (callbackKey req) (reqMessageId req)
           stream.1 stream.2 ;
    post callback_url (callbackKey req) (done_payload (reqMessageId req)).

Definition run_chatbot (req : ChatbotRunRequest) : M unit :=
  callback_url <- lift (validate_callback_url E (callbackUrl req)) ;
  try_except
    (run_chatbot_body req callback_url)
    (fun e =>
       let err_msg := exn_str e in
       try_except
         (post callback_url (callbackKey req)
            (error_payload (reqMessageId req) err_msg))
         (fun cb_err => ret tt)).

End chatbot.
End chatbot_service.

(** * Specification-level definitions *)

Import agent_tools.
Import chatbot_service.

(** The elision marker of [format_rows]. *)
Definition elision (rows : list row) (max_rows : Z) : list string :=
  if max_rows <? Z.of_nat (length rows)
  then ["...(" +:+ pretty (Z.of_nat (length rows) - max_rows) +:+ " more)"]
  else [].

(** ** The outcome of a batch, task by task *)

Section batch.
Context {json : Type} (E : env json).

(** What one task contributes: its rows when its tool ran to completion,
    nothing when the task was skipped. *)
Definition task_outcome (com_id emp_id : option string) (t : RdbTask) (w : world)
  : option (list row) * world :=
  match TOOL_REGISTRY E !! name t with
  | None => (None, w)
  | Some fn =>
      match py_call fn (inject_tenant fn (args t) com_id emp_id) w with
      | (Ok rows, w') => (Some rows, w')
      | (Raise _, w') => (None, w')
      end
  end.

(** The tasks that succeeded, in task order, each with its rows. *)
Fixpoint batch_outcomes (com_id emp_id : option string) (tasks : list RdbTask) (w : world)
  : list (string * list row) * world :=
  match tasks with
  | [] => ([], w)
  | t :: tasks' =>
      let o := task_outcome com_id emp_id t w in
      let os := batch_outcomes com_id emp_id tasks' o.2 in
      (match o.1 with
       | Some rows => (name t, rows) :: os.1
       | None => os.1
       end, os.2)
  end.

(** Concatenated rows and one summary line per successful task. *)
Definition batch_result (os : list (string * list row)) : list row * list string :=
  (concat os.*2, map (fun o => summary_line o.1 o.2) os).

End batch.

(** ** Concrete collaborators used to run the services *)

Definition w0 : world := {| rdb_log := []; posts := [] |}.

(** A store that answers a statement with one row showing the identifiers
    it was bound to, and a name search with two contacts. *)
Definition echo_rdb (log : list rdb_call) (c : rdb_call) : result (list row) :=
  match c with
  | Execute sql params =>
      Ok [[("com_id", default VNone (params !! "com_id"));
           ("emp_id", default VNone (params !! "emp_id"))]]
  | EmployeeContactByName name com_id =>
      Ok [[("emp_name", VStr "Kim A")]; [("emp_name", VStr "Kim B")]]
  | DbWithLlm _ _ _ => Ok []
  end.

(** A store whose third call fails. *)
Definition flaky_rdb (log : list rdb_call) (c : rdb_call) : result (list row) :=
  if bool_decide (length log = 2%nat) then Raise (Exception "connection lost")
  else echo_rdb log c.

Definition make_env
    (rdb : list rdb_call -> rdb_call -> result (list row))
    (chat_create : ChatRequest -> result (option string))
    (chat_stream : ChatRequest -> result (list (option string) * option exn))
    (json_loads : string -> result unit)
    (QueryPlan_init : unit -> result QueryPlan)
    (search_prov_chunks : string -> Z -> result (list string))
    (post_with_retry : list (payload * bool) -> string -> string -> payload -> result unit)
  : env unit :=
  {| RDB_MODEL := "planner-model";
     SUM_MODEL := "answer-model";
     rdb := rdb;
     chat_create := chat_create;
     chat_stream := chat_stream;
     json_loads := json_loads;
     QueryPlan_init := QueryPlan_init;
     search_prov_chunks := search_prov_chunks;
     validate_callback_url := fun url => Ok url;
     post_with_retry := post_with_retry |}.

(** The language model is down, nothing is indexed, every post arrives. *)
Definition echo_env : env unit :=
  make_env echo_rdb
    (fun _ => Raise (Exception "model unavailable"))
    (fun _ => Raise (Exception "model unavailable"))
    (fun _ => Raise (JSONDecodeError "Expecting value"))
    (fun _ => Raise (ValidationError "1 validation error for QueryPlan"))
    (fun _ _ => Ok [])
    (fun _ _ _ _ => Ok tt).

Definition flaky_env : env unit :=
  make_env flaky_rdb
    (fun _ => Raise (Exception "model unavailable"))
    (fun _ => Raise (Exception "model unavailable"))
    (fun _ => Raise (JSONDecodeError "Expecting value"))
    (fun _ => Raise (ValidationError "1 validation error for QueryPlan"))
    (fun _ _ => Ok [])
    (fun _ _ _ _ => Ok tt).

Definition fifteen_rows : list row :=
  map (fun i => [("id", VInt (Z.of_nat i)); ("title", VStr "t")]) (seq 1 15).

Definition task (name : string) (args : list (string * value)) : RdbTask :=
  {| name := name; args := list_to_map args |}.

(** What lines 218-221 put under key [k] when the task left it out. *)
Definition injected (fn : pyfunc) (k : string) (id : option string) : option value :=
  if bool_decide (k ∈ co_varnames fn) && nonempty id then VStr <$> id else None.

(** A world in which the store has already served two calls. *)
Definition w2 : world :=
  {| rdb_log := [DbWithLlm "q" None None; DbWithLlm "q" None None]; posts := [] |}.

Definition batch5 : list RdbTask :=
  [ task "get_my_todos" [];
    task "no_such_tool" [];
    task "get_my_mails" [("limit", VInt 3)];
    task "get_approval_lines" [];
    task "get_employee_contact" [] ].

(** A task that names another company and another employee. *)
Definition foreign_task : RdbTask :=
  task "get_my_todos" [("com_id", VStr "C2"); ("emp_id", VStr "E9")].

Definition todos_sql : string :=
  "SELECT todo_no, title, is_done, created_at, updated_at FROM todo_list WHERE com_id = :com_id AND emp_id = :emp_id LIMIT 50".

Definition mails_sql : string :=
  "SELECT mail_no, title, created_at, sender_id FROM mail WHERE sender_id = :emp_id LIMIT 50".

(** ** Planner and synthesizer *)

(** [p in s] *)
Fixpoint contains (s p : string) : bool :=
  String.prefix p s ||
  match s with
  | EmptyString => false
  | String _ s' => contains s' p
  end.

Definition bad_json_env : env unit :=
  make_env echo_rdb
    (fun _ => Ok (Some "I think the plan is rag"))
    (fun _ => Raise (Exception "model unavailable"))
    (fun _ => Raise (JSONDecodeError "Expecting value: line 1 column 1 (char 0)"))
    (fun _ => Raise (ValidationError "1 validation error for QueryPlan"))
    (fun _ _ => Ok [])
    (fun _ _ _ _ => Ok tt).

Definition bad_shape_env : env unit :=
  make_env echo_rdb
    (fun _ => Ok None)
    (fun _ => Raise (Exception "model unavailable"))
    (fun _ => Ok tt)
    (fun _ => Raise (ValidationError "1 validation error for QueryPlan"))
    (fun _ _ => Ok [])
    (fun _ _ _ _ => Ok tt).

Definition one_turn : list ChatHistoryMessage :=
  [ {| role := "user"; content := "hello" |} ].

(** ** Orchestration *)

(** The events the receiver got: the payloads of the posts that returned. *)
Definition delivered (ps : list (payload * bool)) : list payload :=
  map fst (List.filter snd ps).

(** The number of terminal events among delivered ones. *)
Definition terminal_count (l : list payload) : nat := length (List.filter done l).

(** Posts of chunk events that arrived. *)
Definition chunk_posts (mid : string) (chunks : list string) : list (payload * bool) :=
  map (fun c => (chunk_payload mid c, true)) chunks.

Section orchestration.
Context {json : Type} (E : env json).

(** The chunks a request has to deliver: the fixed refusal when no evidence
    was gathered, else what the synthesizer yields. *)
Definition answer_chunks (req : ChatbotRunRequest) (w : world) : list string :=
  match agent_planner.plan_query E (question req) (history req) (empId req) (comId req) with
  | Ok plan =>
      match gather E req plan w with
      | (Ok texts, _) =>
          if bool_decide (texts.1 = "") && bool_decide (texts.2 = "")
          then [refusal_msg]
          else (agent_synthesizer.stream_final_answer E (question req) (history req)
                  texts.1 texts.2 (answer_style plan) (mode plan)).1
      | (Raise _, _) => []
      end
  | Raise _ => []
  end.

End orchestration.

(** The posts of one request: all chunks and the terminal success event, or
    the first [k] chunks, at most one post that failed, and the post of the
    terminal error event with its outcome. *)
Inductive request_posts (mid : string) (chunks : list string)
  : list (payload * bool) -> Prop :=
| posts_completed :
    request_posts mid chunks (chunk_posts mid chunks ++ [(done_payload mid, true)])
| posts_failed (k : nat) (failed : list (payload * bool)) (msg : string) (b : bool) :
    (failed = [] \/ exists p, failed = [(p, false)]) ->
    request_posts mid chunks
      (chunk_posts mid (take k chunks) ++ failed ++ [(error_payload mid msg, b)]).

(** M computations that do not post. *)
Definition keeps_posts {A} (m : M A) : Prop := forall w, posts (m w).2 = posts w.
Definition returns {A} (m : M A) : Prop := forall w, exists a, (m w).1 = Ok a.

(** What may follow the chunk events among the delivered ones. *)
Definition terminal_events (mid : string) (term : list payload) : Prop :=
  term = [] \/ term = [done_payload mid] \/ exists msg, term = [error_payload mid msg].

Definition req0 : ChatbotRunRequest :=
  {| question := "연차 규정 알려줘";
     history := [];
     empId := Some "E1";
     comId := Some "C1";
     reqMessageId := "m-1";
     callbackUrl := "https://spring.example/chatbot/callback";
     callbackKey := "secret" |}.

(** Every post fails. *)
Definition deaf_env : env unit :=
  make_env echo_rdb
    (fun _ => Raise (Exception "model unavailable"))
    (fun _ => Raise (Exception "model unavailable"))
    (fun _ => Raise (JSONDecodeError "Expecting value"))
    (fun _ => Raise (ValidationError "1 validation error for QueryPlan"))
    (fun _ _ => Ok [])
    (fun _ _ _ _ => Raise (Exception "receiver unreachable")).

(** The first post of the request fails, the later ones arrive. *)
Definition first_post_fails_env : env unit :=
  make_env echo_rdb
    (fun _ => Raise (Exception "model unavailable"))
    (fun _ => Raise (Exception "model unavailable"))
    (fun _ => Raise (JSONDecodeError "Expecting value"))
    (fun _ => Raise (ValidationError "1 validation error for QueryPlan"))
    (fun _ _ => Ok [])
    (fun sent _ _ _ => if is_nil sent then Raise (Exception "receiver unreachable") else Ok tt).

(** One passage is found and the answer streams in two chunks. *)
Definition answer_env : env unit :=
  make_env echo_rdb
    (fun _ => Raise (Exception "model unavailable"))
    (fun _ => Ok ([Some "A"; None; Some "B"], None))
    (fun _ => Raise (JSONDecodeError "Expecting value"))
    (fun _ => Raise (ValidationError "1 validation error for QueryPlan"))
    (fun _ _ => Ok ["Article 12"])
    (fun _ _ _ _ => Ok tt).

(** The streaming call is established, two chunks arrive, then the
    iteration raises; a plain call returns the full answer. *)
Definition midstream_env : env unit :=
  make_env echo_rdb
    (fun _ => Ok (Some "Full answer."))
    (fun _ => Ok ([Some "A"; Some "B"], Some (Exception "stream reset")))
    (fun _ => Raise (JSONDecodeError "Expecting value"))
    (fun _ => Raise (ValidationError "1 validation error for QueryPlan"))
    (fun _ _ => Ok ["Article 12"])
    (fun _ _ _ _ => Ok tt).

(** * Theorems about agent_tools.py *)

Lemma slice_to_ge {A} (l : list A) (n : Z) :
  Z.of_nat (length l) <= n -> slice_to l n = l.
Proof.
  intros H. unfold slice_to.
  destruct (Z.ltb_spec n 0) as [Hn|Hn]; [lia|].
  apply take_ge. lia.
Qed.

Lemma slice_to_pos {A} (l : list A) (n : Z) :
  0 <= n -> slice_to l n = take (Z.to_nat n) l.
Proof.
  intros H. unfold slice_to.
  destruct (Z.ltb_spec n 0) as [Hn|Hn]; [lia|reflexivity].
Qed.

(** For a positive [max_rows] the output is the header, one line per
    sampled row and the elision marker, joined by line feeds. *)
Lemma format_rows_lines (rows : list row) (r0 : row) (max_rows : Z) :
  head rows = Some r0 -> 0 < max_rows ->
  format_rows rows max_rows =
    Ok (join LF (join " | " r0.*1
                 :: map (format_line r0.*1) (slice_to rows max_rows)
                 ++ elision rows max_rows)).
Proof.
  intros Hhd Hpos.
  destruct rows as [|r rows]; [discriminate|]. simpl in Hhd. injection Hhd as ->.
  unfold format_rows, elision. rewrite slice_to_pos by lia.
  destruct (Z.to_nat max_rows) as [|k] eqn:Hk; [lia|].
  rewrite firstn_cons.
  destruct (max_rows <? Z.of_nat (length (r0 :: rows))).
  - rewrite <- app_assoc. reflexivity.
  - rewrite app_nil_r. reflexivity.
Qed.

(** C9: [format_rows] of no rows is the empty string; of 15 rows with
    [max_rows = 10] it is the header made of the keys of the first record,
    then 10 pipe-delimited data rows, then ["...(5 more)"]; and when the
    number of rows does not exceed [max_rows] the output is the header and
    one line per row, without a marker. *)
Theorem format_rows_spec :
  (forall max_rows, format_rows [] max_rows = Ok "") /\
  (forall (rows : list row) (r0 : row),
      length rows = 15%nat -> head rows = Some r0 ->
      exists header data,
        format_rows rows 10 = Ok (join LF (header :: data ++ ["...(5 more)"])) /\
        header = join " | " r0.*1 /\
        data = map (format_line r0.*1) (take 10 rows) /\
        length data = 10%nat) /\
  (forall (rows : list row) (r0 : row) (max_rows : Z),
      head rows = Some r0 -> Z.of_nat (length rows) <= max_rows ->
      format_rows rows max_rows =
        Ok (join LF (join " | " r0.*1 :: map (format_line r0.*1) rows))).
Proof.
  split; [reflexivity|]. split.
  - intros rows r0 Hlen Hhd.
    exists (join " | " r0.*1), (map (format_line r0.*1) (take 10 rows)).
    split; [|split; [reflexivity|split; [reflexivity|]]].
    + rewrite (format_rows_lines rows r0 10 Hhd) by lia.
      unfold elision. rewrite Hlen. reflexivity.
    + rewrite length_map, length_take, Hlen. reflexivity.
  - intros rows r0 m Hhd Hle.
    assert (0 < m) by (destruct rows; [discriminate|simpl in Hle; lia]).
    rewrite (format_rows_lines rows r0 m Hhd) by lia.
    rewrite slice_to_ge by exact Hle. unfold elision.
    destruct (Z.ltb_spec m (Z.of_nat (length rows))) as [Hlt|_]; [lia|].
    rewrite app_nil_r. reflexivity.
Qed.

Lemma format_rows_spec_witness :
  (exists header data,
     format_rows fifteen_rows 10 = Ok (join LF (header :: data ++ ["...(5 more)"])) /\
     header = "id | title" /\
     data = map (format_line ["id"; "title"]) (take 10 fifteen_rows) /\
     length data = 10%nat) /\
  format_rows (take 3 fifteen_rows) 10 =
    Ok (join LF ["id | title"; "1 | t"; "2 | t"; "3 | t"]).
Proof.
  destruct format_rows_spec as (_ & H15 & Hfew). split.
  - apply (H15 fifteen_rows [("id", VInt 1); ("title", VStr "t")]); reflexivity.
  - apply (Hfew (take 3 fifteen_rows) [("id", VInt 1); ("title", VStr "t")] 10).
    + reflexivity.
    + vm_compute. discriminate.
Defined.

(** ** The LIMIT clause *)

Lemma limit_clause_int (n : Z) :
  n <> 0 -> _limit_clause (VInt n) (VInt 50) = Ok (" LIMIT " +:+ pretty (Z.min n 50)).
Proof.
  intros Hn. unfold _limit_clause, py_or. simpl truthy.
  destruct (Z.eqb_spec n 0) as [|_]; [contradiction|]. simpl.
  destruct (Z.ltb_spec 50 n).
  - rewrite Z.min_r by lia. reflexivity.
  - rewrite Z.min_l by lia. reflexivity.
Qed.

Lemma limit_clause_bound (limit : value) (s : string) :
  _limit_clause limit (VInt 50) = Ok s ->
  exists m k, s = " LIMIT " +:+ py_str m /\ as_int m = Some k /\ k <= 50 /\
              (forall n, limit = VInt n -> n <> 0 -> k = Z.min n 50) /\
              (truthy limit = false -> k = 50).
Proof.
  unfold _limit_clause, py_or.
  destruct limit as [|[]|n|s0]; simpl.
  - intros [= <-]. exists (VInt 50), 50. repeat split; intros; simplify_eq; lia.
  - intros [= <-]. exists (VBool true), 1. repeat split; intros; simplify_eq; lia.
  - intros [= <-]. exists (VInt 50), 50. repeat split; intros; simplify_eq; lia.
  - destruct (Z.eqb_spec n 0) as [->|Hn]; simpl.
    + intros [= <-]. exists (VInt 50), 50. repeat split; intros; simplify_eq; lia.
    + destruct (Z.ltb_spec 50 n); intros [= <-].
      * exists (VInt 50), 50. repeat split; intros; simplify_eq; lia.
      * exists (VInt n), n. repeat split; intros; simplify_eq; lia.
  - case_bool_decide; simpl.
    + intros [= <-]. exists (VInt 50), 50. repeat split; intros; simplify_eq; lia.
    + discriminate.
Qed.

Lemma registry_cases {json} (E : env json) (name : string) (fn : pyfunc) :
  TOOL_REGISTRY E !! name = Some fn ->
  (name, fn) ∈ TOOL_REGISTRY_items E.
Proof.
  unfold TOOL_REGISTRY. intros H. apply elem_of_list_to_map_2 in H. exact H.
Qed.

Lemma app_singleton_inv {A} (l : list A) (x y : A) : l ++ [x] = l ++ [y] -> x = y.
Proof. intros H. apply app_inv_head in H. congruence. Qed.

Lemma log_unchanged_absurd {A} (l : list A) (x : A) : l = l ++ [x] -> False.
Proof.
  intros H. apply (f_equal length) in H. rewrite length_app in H. simpl in H. lia.
Qed.

(** A statement built as [sql + _limit_clause(limit)]. *)
Lemma limited_statement {json} (E : env json) (pre : string) (ps : gmap string value)
    (limit : value) (w : world) (sql : string) (params : gmap string value) :
  rdb_log ((lc <- lift (_limit_clause limit (VInt 50)) ;
            call_rdb E (Execute (pre +:+ lc) ps)) w).2
    = rdb_log w ++ [Execute sql params] ->
  exists m k, sql = pre +:+ " LIMIT " +:+ py_str m /\ as_int m = Some k /\ k <= 50 /\
    (forall n, limit = VInt n -> n <> 0 -> k = Z.min n 50) /\
    (truthy limit = false -> k = 50).
Proof.
  unfold bind, lift.
  destruct (_limit_clause limit (VInt 50)) as [lc|e] eqn:Hlc; simpl.
  - intros H. apply app_singleton_inv in H. injection H as <- <-.
    destruct (limit_clause_bound _ _ Hlc) as (m & k & -> & ?).
    exists m, k. split; [reflexivity|assumption].
  - intros H. destruct (log_unchanged_absurd _ _ H).
Qed.

Lemma kwargs_declared (fn : pyfunc) (kwargs : gmap string value) (k : string) (v : value) :
  keywords_declared fn kwargs = true ->
  kwargs !! k = Some v -> k ∈ (fn_params fn).*1.
Proof.
  unfold keywords_declared. intros Hall Hk. rewrite forallb_forall in Hall.
  eapply bool_decide_eq_true_1. apply Hall.
  apply list_elem_of_In. apply list_elem_of_fmap. exists (k, v). split; [reflexivity|].
  by apply elem_of_map_to_list.
Qed.

(** Either the binding fails and nothing happens, or the body runs on the
    bound arguments. *)
Lemma py_call_cases (fn : pyfunc) (kwargs : gmap string value) (w : world) :
  (exists e, py_call fn kwargs w = (Raise e, w)) \/
  (keywords_declared fn kwargs = true /\ required_given fn kwargs = true /\
   py_call fn kwargs w = fn_body fn (bound_args fn kwargs) w).
Proof.
  unfold py_call.
  destruct (keywords_declared fn kwargs); simpl; [|left; eauto].
  destruct (required_given fn kwargs); simpl; [|left; eauto].
  right. auto.
Qed.

Ltac tool_body :=
  repeat match goal with
  | |- context [if truthy ?v then _ else _] => destruct (truthy v)
  end.

Ltac not_declared H :=
  exfalso; apply list_elem_of_In in H; simpl in H; intuition discriminate.

Ltac limit_passed :=
  tool_body;
  (let H := fresh "H" in
   intros H; apply limited_statement in H as (m & k & -> & Hm & Hk & Hn & _);
   eexists _, m, k; repeat split; try done;
   intros n Hl; unfold bound_args in Hn; rewrite Hl in Hn; by apply Hn).

Ltac limit_fixed Hlim :=
  tool_body;
  (let H := fresh "H" in
   intros H; apply limited_statement in H as (m & k & -> & Hm & Hk & _ & _);
   eexists _, m, k; repeat split; try done;
   intros n Hl; apply Hlim in Hl; not_declared Hl).

(** Every statement a registry tool issues ends in a LIMIT of at most 50,
    and in the smaller of 50 and the requested limit when the caller gave a
    non-zero integer. *)
Lemma tool_statement_limit {json} (E : env json) name fn kwargs w sql params :
  TOOL_REGISTRY E !! name = Some fn ->
  rdb_log (py_call fn kwargs w).2 = rdb_log w ++ [Execute sql params] ->
  exists pre m k, sql = pre +:+ " LIMIT " +:+ py_str m /\ as_int m = Some k /\ k <= 50 /\
    (forall n, kwargs !! "limit" = Some (VInt n) -> n <> 0 -> k = Z.min n 50).
Proof.
  intros Hreg. apply registry_cases in Hreg.
  unfold TOOL_REGISTRY_items in Hreg.
  destruct (py_call_cases fn kwargs w) as [[e ->]|(Hdecl & _ & ->)];
    [simpl; intros H; destruct (log_unchanged_absurd _ _ H)|].
  assert (Hlim : forall v, kwargs !! "limit" = Some v -> "limit" ∈ (fn_params fn).*1)
    by (intros v; apply kwargs_declared; exact Hdecl).
  repeat (apply elem_of_cons in Hreg as [[= -> ->]|Hreg]); [..|by apply elem_of_nil in Hreg].
  all: simpl fn_body.
  - unfold get_my_todos. limit_passed.
  - unfold get_my_mails. limit_passed.
  - unfold get_my_attendance. limit_fixed Hlim.
  - unfold get_meetings_for_me. limit_fixed Hlim.
  - unfold get_meeting_room_reservations. limit_passed.
  - unfold get_corporate_car_reservations. limit_passed.
  - unfold get_shared_equipment_reservations. limit_passed.
  - unfold search_employee_by_name. intros H. simpl in H.
    apply app_singleton_inv in H. discriminate.
  - unfold get_employee_contact. intros H. simpl in H.
    apply app_singleton_inv in H. injection H as <- <-.
    exists ("SELECT emp_name, email, phone, work_phone, emp_id, dep_no, pos_no " +:+
            "FROM employee WHERE com_id = :com_id AND emp_id = :emp_id"), (VInt 5), 5.
    split; [reflexivity|]. split; [reflexivity|]. split; [lia|].
    intros n Hl. apply Hlim in Hl. not_declared Hl.
  - unfold search_board_posts. limit_passed.
  - unfold get_approval_lines. limit_passed.
Qed.

(** C8, as the code has it: the clause [_limit_clause] appends never exceeds
    50; it is [min(limit, 50)] for every non-zero integer limit and
    [LIMIT 50] when the limit is [None] or 0; and every statement a registry
    tool issues ends in such a clause (in the fixed [LIMIT 5] for
    [get_employee_contact]), with [min(limit, 50)] when the caller requested
    a non-zero integer limit. *)
Theorem limit_clause_capped {json} (E : env json) :
  (forall n, n <> 0 ->
     _limit_clause (VInt n) (VInt 50) = Ok (" LIMIT " +:+ pretty (Z.min n 50))) /\
  _limit_clause VNone (VInt 50) = Ok " LIMIT 50" /\
  _limit_clause (VInt 0) (VInt 50) = Ok " LIMIT 50" /\
  (forall limit s, _limit_clause limit (VInt 50) = Ok s ->
     exists m k, s = " LIMIT " +:+ py_str m /\ as_int m = Some k /\ k <= 50) /\
  (forall name fn kwargs w sql params,
     TOOL_REGISTRY E !! name = Some fn ->
     rdb_log (py_call fn kwargs w).2 = rdb_log w ++ [Execute sql params] ->
     exists pre m k,
       sql = pre +:+ " LIMIT " +:+ py_str m /\ as_int m = Some k /\ k <= 50 /\
       (forall n, kwargs !! "limit" = Some (VInt n) -> n <> 0 -> k = Z.min n 50)).
Proof.
  split; [exact limit_clause_int|]. split; [reflexivity|]. split; [reflexivity|].
  split.
  - intros limit s H. destruct (limit_clause_bound _ _ H) as (m & k & ? & ? & ? & _).
    eauto.
  - intros name fn kwargs w sql params. apply tool_statement_limit.
Qed.

Lemma limit_clause_capped_witness :
  _limit_clause (VInt 7) (VInt 50) = Ok " LIMIT 7" /\
  _limit_clause (VInt 70) (VInt 50) = Ok " LIMIT 50" /\
  (exists m k, " LIMIT True" = " LIMIT " +:+ py_str m /\ as_int m = Some k /\ k <= 50) /\
  (exists pre m k,
     "SELECT board_no, title, created_at, emp_id FROM board WHERE com_id = :com_id AND (title LIKE :kw OR contents LIKE :kw) LIMIT 3"
       = pre +:+ " LIMIT " +:+ py_str m /\ as_int m = Some k /\ k <= 50 /\
     (forall n, (list_to_map [("com_id", VStr "C1"); ("keyword", VStr "notice");
                              ("limit", VInt 3)] : gmap string value) !! "limit"
                = Some (VInt n) -> n <> 0 -> k = Z.min n 50)).
Proof.
  destruct (limit_clause_capped echo_env) as (Hint & _ & _ & Hany & Htool).
  split; [apply (Hint 7); lia|]. split; [apply (Hint 70); lia|]. split.
  - apply (Hany (VBool true)). reflexivity.
  - apply (Htool "search_board_posts" (fn_search_board_posts echo_env) _ w0 _
             (list_to_map [("com_id", VStr "C1"); ("kw", VStr "%notice%")])).
    + reflexivity.
    + vm_compute. reflexivity.
Defined.

(** C8 does not hold at a requested limit of 0, which the clause turns
    into [LIMIT 50] although [min(0, 50) = 0]; and [search_employee_by_name]
    drops the requested limit, so a request for one row gets the two rows
    the name search returns. *)
Lemma limit_zero_not_min :
  _limit_clause (VInt 0) (VInt 50) = Ok " LIMIT 50" /\
  _limit_clause (VInt 0) (VInt 50) <> Ok (" LIMIT " +:+ pretty (Z.min 0 50)) /\
  (exists rows summaries w,
     execute_rdb_tasks echo_env
       [task "search_employee_by_name" [("name", VStr "Kim"); ("limit", VInt 1)]]
       (Some "C1") (Some "E1") w0 = (Ok (rows, summaries), w) /\
     length rows = 2%nat /\
     rdb_log w = [EmployeeContactByName (VStr "Kim") (VStr "C1")]).
Proof.
  split; [reflexivity|]. split; [vm_compute; discriminate|].
  eexists _, _, _. split; [vm_compute; reflexivity|]. split; reflexivity.
Qed.

(** ** Tenant identifiers *)

Lemma setdefault_lookup (k k' : string) (v : value) (d : gmap string value) :
  setdefault k v d !! k' =
    if decide (k = k') then Some (default v (d !! k)) else d !! k'.
Proof.
  unfold setdefault. destruct (d !! k) as [x|] eqn:Hk.
  - destruct (decide (k = k')) as [<-|]; [exact Hk|reflexivity].
  - destruct (decide (k = k')) as [<-|Hne].
    + apply lookup_insert_eq.
    + by apply lookup_insert_ne.
Qed.

Lemma inject_tenant_com (fn : pyfunc) (a : gmap string value) (com emp : option string) :
  inject_tenant fn a com emp !! "com_id" =
    match a !! "com_id" with
    | Some v => Some v
    | None => injected fn "com_id" com
    end.
Proof.
  unfold inject_tenant, injected.
  assert (Hemp : forall d : gmap string value,
     match emp with
     | Some e => if bool_decide ("emp_id" ∈ co_varnames fn) && nonempty emp
                 then setdefault "emp_id" (VStr e) d else d
     | None => d
     end !! "com_id" = d !! "com_id").
  { intros d. destruct emp as [e|]; [|reflexivity].
    destruct (_ && _); [|reflexivity]. rewrite setdefault_lookup. reflexivity. }
  rewrite Hemp.
  destruct com as [c|].
  - destruct (bool_decide ("com_id" ∈ co_varnames fn) && nonempty (Some c));
      simpl fmap; lazy iota.
    + rewrite setdefault_lookup. simpl. by destruct (a !! "com_id").
    + by destruct (a !! "com_id").
  - rewrite andb_false_r. by destruct (a !! "com_id").
Qed.

Lemma inject_tenant_emp (fn : pyfunc) (a : gmap string value) (com emp : option string) :
  inject_tenant fn a com emp !! "emp_id" =
    match a !! "emp_id" with
    | Some v => Some v
    | None => injected fn "emp_id" emp
    end.
Proof.
  unfold inject_tenant, injected.
  set (a' := match com with Some c => _ | None => a end).
  assert (Hcom : a' !! "emp_id" = a !! "emp_id").
  { subst a'. destruct com as [c|]; [|reflexivity].
    destruct (_ && _); [|reflexivity]. rewrite setdefault_lookup. reflexivity. }
  destruct emp as [e|].
  - destruct (bool_decide ("emp_id" ∈ co_varnames fn) && nonempty (Some e));
      simpl fmap; lazy iota.
    + rewrite setdefault_lookup. simpl. rewrite Hcom. by destruct (a !! "emp_id").
    + rewrite Hcom. by destruct (a !! "emp_id").
  - rewrite andb_false_r, Hcom. by destruct (a !! "emp_id").
Qed.

(** ** The executor *)

Section batch_lemmas.
Context {json : Type} (E : env json).

Lemma run_task_outcome com emp t acc w :
  run_task E com emp t acc w =
    let o := task_outcome E com emp t w in
    (Ok match o.1 with
        | Some rows => (acc.1 ++ rows, acc.2 ++ [summary_line (name t) rows])
        | None => acc
        end, o.2).
Proof.
  unfold run_task, task_outcome.
  destruct (TOOL_REGISTRY E !! name t) as [fn|]; [|reflexivity].
  unfold try_except, bind, ret.
  destruct (py_call fn _ w) as [[rows|e] w']; reflexivity.
Qed.

Lemma for_tasks_outcomes com emp tasks acc w :
  for_tasks E com emp tasks acc w =
    let os := batch_outcomes E com emp tasks w in
    (Ok (acc.1 ++ (batch_result os.1).1, acc.2 ++ (batch_result os.1).2), os.2).
Proof.
  revert acc w. induction tasks as [|t tasks IH]; intros acc w.
  - simpl. unfold ret. rewrite !app_nil_r. by destruct acc.
  - simpl. unfold bind. rewrite run_task_outcome. simpl.
    rewrite IH. simpl.
    destruct (task_outcome E com emp t w) as [[rows|] w']; simpl; [|reflexivity].
    rewrite <- !app_assoc. reflexivity.
Qed.

Lemma execute_rdb_tasks_outcomes com emp tasks w :
  execute_rdb_tasks E tasks com emp w =
    (Ok (batch_result (batch_outcomes E com emp tasks w).1),
     (batch_outcomes E com emp tasks w).2).
Proof.
  unfold execute_rdb_tasks. rewrite for_tasks_outcomes. reflexivity.
Qed.

End batch_lemmas.

(** C4: [execute_rdb_tasks] never raises; its result is the concatenation of
    the rows of the tasks that succeeded, in task order, with one summary
    line ["<name>: <n> rows"] per such task; a task whose name is not in the
    registry is skipped; a task whose tool raises is skipped and the batch
    goes on with the remaining tasks. *)
Theorem execute_rdb_tasks_partial_failure {json} (E : env json) (com emp : option string) :
  (forall tasks w,
     execute_rdb_tasks E tasks com emp w =
       (Ok (batch_result (batch_outcomes E com emp tasks w).1),
        (batch_outcomes E com emp tasks w).2)) /\
  (forall t tasks w,
     TOOL_REGISTRY E !! name t = None ->
     execute_rdb_tasks E (t :: tasks) com emp w = execute_rdb_tasks E tasks com emp w) /\
  (forall t tasks fn e w w',
     TOOL_REGISTRY E !! name t = Some fn ->
     py_call fn (inject_tenant fn (args t) com emp) w = (Raise e, w') ->
     execute_rdb_tasks E (t :: tasks) com emp w = execute_rdb_tasks E tasks com emp w') /\
  (forall t tasks fn rows w w',
     TOOL_REGISTRY E !! name t = Some fn ->
     py_call fn (inject_tenant fn (args t) com emp) w = (Ok rows, w') ->
     exists rs ss w'',
       execute_rdb_tasks E tasks com emp w' = (Ok (rs, ss), w'') /\
       execute_rdb_tasks E (t :: tasks) com emp w =
         (Ok (rows ++ rs, summary_line (name t) rows :: ss), w'')).
Proof.
  split; [apply execute_rdb_tasks_outcomes|]. split; [|split].
  - intros t tasks w Hreg. rewrite !execute_rdb_tasks_outcomes. simpl.
    unfold task_outcome. rewrite Hreg. reflexivity.
  - intros t tasks fn e w w' Hreg Hcall. rewrite !execute_rdb_tasks_outcomes. simpl.
    unfold task_outcome. rewrite Hreg, Hcall. reflexivity.
  - intros t tasks fn rows w w' Hreg Hcall. rewrite !execute_rdb_tasks_outcomes.
    eexists _, _, _. split; [reflexivity|]. simpl.
    unfold task_outcome. rewrite Hreg, Hcall. reflexivity.
Qed.

Lemma execute_rdb_tasks_partial_failure_witness :
  execute_rdb_tasks flaky_env batch5 (Some "C1") (Some "E1") w0 =
    (Ok (batch_result
           [("get_my_todos", [[("com_id", VStr "C1"); ("emp_id", VStr "E1")]]);
            ("get_my_mails", [[("com_id", VNone); ("emp_id", VStr "E1")]]);
            ("get_employee_contact", [[("com_id", VStr "C1"); ("emp_id", VStr "E1")]])]),
     (batch_outcomes flaky_env (Some "C1") (Some "E1") batch5 w0).2) /\
  execute_rdb_tasks flaky_env (task "no_such_tool" [] :: batch5) (Some "C1") (Some "E1") w0 =
    execute_rdb_tasks flaky_env batch5 (Some "C1") (Some "E1") w0 /\
  (exists w', execute_rdb_tasks flaky_env (task "get_approval_lines" [] :: batch5)
       (Some "C1") (Some "E1") w2 =
     execute_rdb_tasks flaky_env batch5 (Some "C1") (Some "E1") w') /\
  (exists rs ss w'',
     execute_rdb_tasks flaky_env (task "get_my_todos" [] :: batch5)
       (Some "C1") (Some "E1") w0 =
       (Ok ([[("com_id", VStr "C1"); ("emp_id", VStr "E1")]] ++ rs,
            "get_my_todos: 1 rows" :: ss), w'')).
Proof.
  destruct (execute_rdb_tasks_partial_failure flaky_env (Some "C1") (Some "E1"))
    as (Hall & Hunknown & Hraise & Hok).
  split; [apply (Hall batch5 w0)|]. split; [|split].
  - apply (Hunknown (task "no_such_tool" []) batch5 w0). reflexivity.
  - eexists. eapply (Hraise (task "get_approval_lines" []) batch5
                       (fn_get_approval_lines flaky_env) (Exception "connection lost") w2).
    + reflexivity.
    + vm_compute. reflexivity.
  - destruct (Hok (task "get_my_todos" []) batch5 (fn_get_my_todos flaky_env)
                [[("com_id", VStr "C1"); ("emp_id", VStr "E1")]] w0
                (call_rdb flaky_env (Execute
                   "SELECT todo_no, title, is_done, created_at, updated_at FROM todo_list WHERE com_id = :com_id AND emp_id = :emp_id LIMIT 50"
                   (list_to_map [("com_id", VStr "C1"); ("emp_id", VStr "E1")])) w0).2)
      as (rs & ss & w'' & _ & H).
    + reflexivity.
    + vm_compute. reflexivity.
    + exists rs, ss, w''. exact H.
Defined.

(** C10: the tool of a task is called on the task's argument map after the
    two [setdefault] calls; a [com_id] or [emp_id] the task binds reaches the
    tool unchanged, the tenant's identifier is used only for an absent key;
    and for some task the statement runs with the identifiers of another
    company and employee than the requesting ones. *)
Theorem task_ids_pass_through {json} (E : env json) (t : RdbTask) (fn : pyfunc)
    (com emp : option string) (acc : list row * list string) (w : world) :
  TOOL_REGISTRY E !! name t = Some fn ->
  let eff := inject_tenant fn (args t) com emp in
  (run_task E com emp t acc w).2 = (py_call fn eff w).2 /\
  (forall v, args t !! "com_id" = Some v -> eff !! "com_id" = Some v) /\
  (forall v, args t !! "emp_id" = Some v -> eff !! "emp_id" = Some v) /\
  (args t !! "com_id" = None -> eff !! "com_id" = injected fn "com_id" com) /\
  (args t !! "emp_id" = None -> eff !! "emp_id" = injected fn "emp_id" emp) /\
  (exists (t' : RdbTask) sql params rows summaries,
     execute_rdb_tasks echo_env [t'] (Some "C1") (Some "E1") w0 =
       (Ok (rows, summaries), {| rdb_log := [Execute sql params]; posts := [] |}) /\
     params !! "com_id" = Some (VStr "C2") /\
     params !! "emp_id" = Some (VStr "E9") /\
     rows = [[("com_id", VStr "C2"); ("emp_id", VStr "E9")]]).
Proof.
  intros Hreg eff. subst eff. split; [|split; [|split; [|split; [|split]]]].
  - unfold run_task. rewrite Hreg. unfold try_except, bind, ret.
    by destruct (py_call fn _ w) as [[rows|e] w'].
  - intros v Hv. by rewrite inject_tenant_com, Hv.
  - intros v Hv. by rewrite inject_tenant_emp, Hv.
  - intros Hv. by rewrite inject_tenant_com, Hv.
  - intros Hv. by rewrite inject_tenant_emp, Hv.
  - exists foreign_task, todos_sql,
      (list_to_map [("com_id", VStr "C2"); ("emp_id", VStr "E9")]).
    eexists _, _. split; [vm_compute; reflexivity|]. split; [reflexivity|].
    split; reflexivity.
Qed.

Lemma task_ids_pass_through_witness :
  let eff := inject_tenant (fn_get_my_todos echo_env) (args foreign_task)
               (Some "C1") (Some "E1") in
  eff !! "com_id" = Some (VStr "C2") /\ eff !! "emp_id" = Some (VStr "E9") /\
  inject_tenant (fn_get_my_todos echo_env) ∅ (Some "C1") (Some "E1") !! "com_id"
    = Some (VStr "C1").
Proof.
  destruct (task_ids_pass_through echo_env foreign_task (fn_get_my_todos echo_env)
              (Some "C1") (Some "E1") ([], []) w0 eq_refl)
    as (_ & Hcom & Hemp & _).
  destruct (task_ids_pass_through echo_env (task "get_my_todos" [])
              (fn_get_my_todos echo_env) (Some "C1") (Some "E1") ([], []) w0 eq_refl)
    as (_ & _ & _ & Hnone & _).
  split; [apply Hcom; reflexivity|]. split; [apply Hemp; reflexivity|].
  apply Hnone. reflexivity.
Defined.

(** C2 at a failing input: for the tenant (C1, E1) a task that names
    company C2 and employee E9 makes [get_my_todos] run for C2 and E9, and
    the statement of [get_my_mails] carries no company filter. *)
Lemma tenant_scope_escape :
  rdb_log (execute_rdb_tasks echo_env
             [foreign_task; task "get_my_mails" []] (Some "C1") (Some "E1") w0).2 =
    [ Execute todos_sql (list_to_map [("com_id", VStr "C2"); ("emp_id", VStr "E9")]);
      Execute mails_sql (list_to_map [("emp_id", VStr "E1")]) ] /\
  (execute_rdb_tasks echo_env
     [foreign_task; task "get_my_mails" []] (Some "C1") (Some "E1") w0).1 =
    Ok ([ [("com_id", VStr "C2"); ("emp_id", VStr "E9")];
          [("com_id", VNone); ("emp_id", VStr "E1")] ],
        ["get_my_todos: 1 rows"; "get_my_mails: 1 rows"]).
Proof. split; vm_compute; reflexivity. Qed.

(** * Theorems about agent_planner.py and agent_synthesizer.py *)

(** C3: [plan_query] never raises, and when the model call raises, or its
    output does not parse as JSON, or the parsed value is rejected by
    [QueryPlan], it returns the default plan: mode [rag] with the single
    task of the question itself and [top_k = 5]. *)
Theorem plan_query_never_raises {json} (E : env json) (question : string)
    (history : list ChatHistoryMessage) (emp_id com_id : option string) :
  let req := agent_planner.planner_request E question history in
  let plan := agent_planner.plan_query E question history emp_id com_id in
  (exists p, plan = Ok p) /\
  (forall e, chat_create E req = Raise e ->
     plan = Ok (agent_planner.default_plan question)) /\
  (forall c e, chat_create E req = Ok c ->
     json_loads E (str_or (default "" c) "{}") = Raise e ->
     plan = Ok (agent_planner.default_plan question)) /\
  (forall c d e, chat_create E req = Ok c ->
     json_loads E (str_or (default "" c) "{}") = Ok d ->
     QueryPlan_init E d = Raise e ->
     plan = Ok (agent_planner.default_plan question)) /\
  mode (agent_planner.default_plan question) = Rag /\
  rag_tasks (agent_planner.default_plan question) = [ {| query := question; top_k := 5 |} ].
Proof.
  intros req plan. subst req plan.
  unfold agent_planner.plan_query, agent_planner.plan_attempt.
  split; [|split; [|split; [|split; [|split; reflexivity]]]].
  - destruct (chat_create E _) as [c|[]]; eauto.
    destruct (json_loads E _) as [d|[]]; eauto.
    destruct (QueryPlan_init E d) as [p|[]]; eauto.
  - intros e ->. by destruct e.
  - intros c e -> ->. by destruct e.
  - intros c d e -> -> ->. by destruct e.
Qed.

Lemma plan_query_never_raises_witness :
  agent_planner.plan_query echo_env "연차 규정 알려줘" one_turn (Some "E1") (Some "C1")
    = Ok (agent_planner.default_plan "연차 규정 알려줘") /\
  agent_planner.plan_query bad_json_env "연차 규정 알려줘" [] (Some "E1") (Some "C1")
    = Ok (agent_planner.default_plan "연차 규정 알려줘") /\
  agent_planner.plan_query bad_shape_env "연차 규정 알려줘" [] (Some "E1") None
    = Ok (agent_planner.default_plan "연차 규정 알려줘").
Proof.
  split; [|split].
  - destruct (plan_query_never_raises echo_env "연차 규정 알려줘" one_turn
                (Some "E1") (Some "C1")) as (_ & H & _).
    apply (H (Exception "model unavailable")). reflexivity.
  - destruct (plan_query_never_raises bad_json_env "연차 규정 알려줘" []
                (Some "E1") (Some "C1")) as (_ & _ & H & _).
    apply (H (Some "I think the plan is rag")
             (JSONDecodeError "Expecting value: line 1 column 1 (char 0)"));
      reflexivity.
  - destruct (plan_query_never_raises bad_shape_env "연차 규정 알려줘" []
                (Some "E1") None) as (_ & _ & _ & H & _).
    apply (H None tt (ValidationError "1 validation error for QueryPlan"));
      reflexivity.
Defined.

(** ** The prompt of the synthesizer *)

Lemma synth_history_text_nonempty (m : ChatHistoryMessage) (history : list ChatHistoryMessage) :
  agent_synthesizer._history_to_text (m :: history) <> "".
Proof.
  unfold agent_synthesizer._history_to_text, join. simpl map.
  unfold agent_synthesizer.history_line at 1.
  destruct (startswith _ _); destruct (map _ history); simpl; discriminate.
Qed.

Lemma user_prompt_without_history question db_text rag_text answer_style :
  agent_synthesizer.user_prompt question [] db_text rag_text answer_style =
    "[질문]" +:+ LF +:+ question +:+ LF +:+ LF +:+
    "[DB 결과]" +:+ LF +:+ str_or db_text "(없음)" +:+ LF +:+ LF +:+
    "[규정 근거]" +:+ LF +:+ str_or rag_text "(없음)".
Proof. reflexivity. Qed.

Lemma user_prompt_with_history question m history db_text rag_text answer_style :
  agent_synthesizer.user_prompt question (m :: history) db_text rag_text answer_style =
    agent_synthesizer.grounding_instructions +:+
    agent_synthesizer.style_hint answer_style +:+ LF +:+ LF +:+
    "[이전 대화]" +:+ LF +:+
    agent_synthesizer._history_to_text (m :: history) +:+ LF +:+ LF.
Proof.
  unfold agent_synthesizer.user_prompt.
  pose proof (synth_history_text_nonempty m history) as Hne.
  case_bool_decide; [contradiction|]. reflexivity.
Qed.

(** C7 at two failing inputs: without history the prompt has neither the
    grounding instructions nor the style hint; with history it has neither
    the question nor the relational and semantic evidence. *)
Lemma user_prompt_drops_parts :
  let fresh := agent_synthesizer.user_prompt "WHO-IS-ON-LEAVE" []
                 "emp_name | day" "Article 12" (Some "요약") in
  let followup := agent_synthesizer.user_prompt "WHO-IS-ON-LEAVE" one_turn
                    "emp_name | day" "Article 12" (Some "요약") in
  fresh = "[질문]" +:+ LF +:+ "WHO-IS-ON-LEAVE" +:+ LF +:+ LF +:+
          "[DB 결과]" +:+ LF +:+ "emp_name | day" +:+ LF +:+ LF +:+
          "[규정 근거]" +:+ LF +:+ "Article 12" /\
  contains fresh agent_synthesizer.grounding_instructions = false /\
  contains fresh "요약" = false /\
  followup = agent_synthesizer.grounding_instructions +:+ "답변 스타일: 요약" +:+
             LF +:+ LF +:+ "[이전 대화]" +:+ LF +:+ "User: hello" +:+ LF +:+ LF /\
  contains followup "WHO-IS-ON-LEAVE" = false /\
  contains followup "emp_name | day" = false /\
  contains followup "Article 12" = false.
Proof. repeat split; vm_compute; reflexivity. Qed.

(** ** The stream of the synthesizer *)

(** When the iteration over an established stream raises, the chunks already
    yielded are followed by the paragraphs of the plain call. *)
Lemma stream_final_answer_midstream {json} (E : env json) question hist db_text rag_text
    answer_style md cs e :
  let prompt := agent_synthesizer.user_prompt question hist db_text rag_text answer_style in
  chat_stream E (agent_synthesizer.synth_request E prompt true) = Ok (cs, Some e) ->
  agent_synthesizer.stream_final_answer E question hist db_text rag_text answer_style md =
    (agent_synthesizer.deltas cs ++ (agent_synthesizer.fallback E prompt).1,
     (agent_synthesizer.fallback E prompt).2).
Proof.
  intros prompt H. unfold agent_synthesizer.stream_final_answer. fold prompt.
  rewrite H. by destruct (agent_synthesizer.fallback E prompt).
Qed.

(** The generator raises only when the plain call of the fall-back raises. *)
Lemma stream_final_answer_raises {json} (E : env json) question hist db_text rag_text
    answer_style md chunks e :
  let prompt := agent_synthesizer.user_prompt question hist db_text rag_text answer_style in
  agent_synthesizer.stream_final_answer E question hist db_text rag_text answer_style md =
    (chunks, Some e) ->
  chat_create E (agent_synthesizer.synth_request E prompt false) = Raise e.
Proof.
  intros prompt. unfold agent_synthesizer.stream_final_answer. fold prompt.
  assert (Hfb : forall ps, agent_synthesizer.fallback E prompt = (ps, Some e) ->
                chat_create E (agent_synthesizer.synth_request E prompt false) = Raise e).
  { unfold agent_synthesizer.fallback. intros ps.
    destruct (chat_create E _) as [c|e']; [discriminate|]. by intros [= _ ->]. }
  destruct (chat_stream E _) as [[cs [e'|]]|e'].
  - destruct (agent_synthesizer.fallback E prompt) as [ps o] eqn:Hf.
    intros [= _ ->]. by apply (Hfb ps).
  - discriminate.
  - intros H. by apply (Hfb chunks).
Qed.

(** * Theorems about chatbot_service.py *)

Lemma keeps_posts_ret {A} (a : A) : keeps_posts (ret a).
Proof. by intros w. Qed.
Lemma keeps_posts_raise {A} (e : exn) : keeps_posts (@raise A e).
Proof. by intros w. Qed.
Lemma keeps_posts_lift {A} (r : result A) : keeps_posts (lift r).
Proof. by intros w. Qed.
Lemma keeps_posts_bind {A B} (m : M A) (k : A -> M B) :
  keeps_posts m -> (forall a, keeps_posts (k a)) -> keeps_posts (bind m k).
Proof.
  intros Hm Hk w. unfold bind. specialize (Hm w).
  destruct (m w) as [[a|e] w1]; simpl in *; [|done].
  by rewrite Hk.
Qed.
Lemma keeps_posts_try {A} (m : M A) (h : exn -> M A) :
  keeps_posts m -> (forall e, keeps_posts (h e)) -> keeps_posts (try_except m h).
Proof.
  intros Hm Hh w. unfold try_except. specialize (Hm w).
  destruct (m w) as [[a|e] w1]; simpl in *; [done|].
  by rewrite Hh.
Qed.
Lemma keeps_posts_call_rdb {json} (E : env json) c : keeps_posts (call_rdb E c).
Proof. by intros w. Qed.

Lemma returns_ret {A} (a : A) : returns (ret a).
Proof. intros w. by exists a. Qed.
Lemma returns_bind {A B} (m : M A) (k : A -> M B) :
  returns m -> (forall a, returns (k a)) -> returns (bind m k).
Proof.
  intros Hm Hk w. unfold bind. destruct (Hm w) as [a Ha].
  destruct (m w) as [[a'|e] w1]; simpl in *; [|done]. apply Hk.
Qed.
Lemma returns_try {A} (m : M A) (h : exn -> M A) :
  (forall e, returns (h e)) -> returns (try_except m h).
Proof.
  intros Hh w. unfold try_except.
  destruct (m w) as [[a|e] w1]; simpl; [by exists a|apply Hh].
Qed.
Lemma returns_lift_ok {A} (a : A) : returns (lift (Ok a)).
Proof. intros w. by exists a. Qed.

Ltac keeps :=
  repeat first
    [ apply keeps_posts_ret | apply keeps_posts_raise | apply keeps_posts_lift
    | apply keeps_posts_call_rdb
    | apply keeps_posts_bind | apply keeps_posts_try
    | match goal with |- forall _, _ => intro end
    | match goal with |- keeps_posts (if ?b then _ else _) => destruct b end
    | match goal with |- keeps_posts (let '(_, _) := ?x in _) => destruct x end ].

Lemma py_call_keeps_posts {json} (E : env json) name fn kwargs :
  TOOL_REGISTRY E !! name = Some fn -> keeps_posts (py_call fn kwargs).
Proof.
  intros Hreg. apply registry_cases in Hreg. unfold TOOL_REGISTRY_items in Hreg.
  unfold py_call.
  repeat (apply elem_of_cons in Hreg as [[= -> ->]|Hreg]); [..|by apply elem_of_nil in Hreg].
  all: simpl fn_body.
  all: unfold get_my_todos, get_my_mails, get_my_attendance, get_meetings_for_me,
         get_meeting_room_reservations, get_corporate_car_reservations,
         get_shared_equipment_reservations, search_employee_by_name,
         get_employee_contact, search_board_posts, get_approval_lines.
  all: keeps.
Qed.

Lemma run_task_keeps_posts {json} (E : env json) com emp t acc :
  keeps_posts (run_task E com emp t acc).
Proof.
  unfold run_task. destruct (TOOL_REGISTRY E !! name t) as [fn|] eqn:Hreg; keeps.
  eapply py_call_keeps_posts, Hreg.
Qed.

Lemma execute_rdb_tasks_keeps_posts {json} (E : env json) tasks com emp :
  keeps_posts (execute_rdb_tasks E tasks com emp).
Proof.
  unfold execute_rdb_tasks. generalize (@nil row, @nil string).
  induction tasks as [|t tasks IH]; intros acc; simpl; keeps.
  - apply run_task_keeps_posts.
  - apply IH.
Qed.

Lemma execute_rdb_tasks_returns {json} (E : env json) tasks com emp :
  returns (execute_rdb_tasks E tasks com emp).
Proof. intros w. rewrite execute_rdb_tasks_outcomes. eauto. Qed.

Lemma format_rows_default_returns (rows : list row) : exists s, format_rows rows 10 = Ok s.
Proof.
  destruct rows as [|r rows]; [by exists ""|].
  rewrite (format_rows_lines (r :: rows) r 10) by (reflexivity || lia). eauto.
Qed.

Lemma gather_keeps_posts {json} (E : env json) req plan : keeps_posts (gather E req plan).
Proof.
  unfold gather, query_db_with_llm. keeps.
  all: apply execute_rdb_tasks_keeps_posts.
Qed.

Lemma gather_returns {json} (E : env json) req plan : returns (gather E req plan).
Proof.
  unfold gather. apply returns_bind.
  - destruct (mode_in _ _ _); [|apply returns_ret].
    apply returns_bind; [apply execute_rdb_tasks_returns|].
    intros r. destruct (_ && _); [|apply returns_ret].
    apply returns_try. intros e. apply returns_ret.
  - intros db_rows. apply returns_bind.
    + destruct (_ && _); [|apply returns_ret].
      apply returns_try. intros e. apply returns_ret.
    + intros db_rows'. apply returns_bind; [|intros; apply returns_ret].
      destruct (format_rows_default_returns db_rows') as [s ->]. apply returns_lift_ok.
Qed.

Section trace.
Context {json : Type} (E : env json).

Lemma post_cases url key p w :
  (post E url key p w = (Ok tt, {| rdb_log := rdb_log w; posts := posts w ++ [(p, true)] |})) \/
  (exists e, post E url key p w =
     (Raise e, {| rdb_log := rdb_log w; posts := posts w ++ [(p, false)] |})).
Proof.
  unfold post. destruct (post_with_retry E (posts w) url key p) as [[]|e]; eauto.
Qed.

Lemma for_deltas_cons url key mid c chunks ending w :
  for_deltas E url key mid (c :: chunks) ending w =
    match post E url key (chunk_payload mid c) w with
    | (Ok _, w1) => for_deltas E url key mid chunks ending w1
    | (Raise e, w1) => (Raise e, w1)
    end.
Proof. reflexivity. Qed.

(** The loop over the stream: all chunks posted, or the first [k] chunks
    and the post that failed. *)
Lemma for_deltas_posts url key mid chunks ending w :
  (exists w', for_deltas E url key mid chunks ending w = (Ok tt, w') /\
              posts w' = posts w ++ chunk_posts mid chunks) \/
  (exists e w' k failed,
     for_deltas E url key mid chunks ending w = (Raise e, w') /\
     posts w' = posts w ++ chunk_posts mid (take k chunks) ++ failed /\
     (failed = [] \/ exists p, failed = [(p, false)])).
Proof.
  revert w. induction chunks as [|c chunks IH]; intros w.
  - simpl. destruct ending as [e|].
    + right. exists e, w, 0%nat, []. rewrite app_nil_r. auto.
    + left. exists w. by rewrite app_nil_r.
  - rewrite for_deltas_cons.
    destruct (post_cases url key (chunk_payload mid c) w) as [->|[e ->]]; lazy beta iota.
    + set (w1 := {| rdb_log := rdb_log w; posts := posts w ++ [(chunk_payload mid c, true)] |}).
      destruct (IH w1) as [(w' & Hr & Hp)|(e & w' & k & failed & Hr & Hp & Hf)];
        rewrite Hr.
      * left. exists w'. split; [done|]. rewrite Hp. simpl. rewrite <- app_assoc. reflexivity.
      * right. exists e, w', (S k), failed. split; [done|]. split; [|done].
        rewrite Hp. simpl. rewrite <- app_assoc. reflexivity.
    + right. eexists e, _, 0%nat, [(chunk_payload mid c, false)].
      split; [done|]. split; [done|]. eauto.
Qed.


(** Posting the chunks and then the terminal success event, followed by the
    handler of [run_chatbot]. *)
Lemma handler_posts url key mid chunks e w1 k failed :
  posts w1 = chunk_posts mid (take k chunks) ++ failed ->
  (failed = [] \/ exists p, failed = [(p, false)]) ->
  exists w', try_except (post E url key (error_payload mid (exn_str e)))
                        (fun _ => ret tt) w1 = (Ok tt, w') /\
             request_posts mid chunks (posts w').
Proof.
  intros Hp Hf. unfold try_except.
  destruct (post_cases url key (error_payload mid (exn_str e)) w1) as [->|[e' ->]];
    eexists; (split; [reflexivity|]); simpl; rewrite Hp, <- app_assoc; by constructor.
Qed.

Lemma deliver_posts url key mid chunks ending w :
  posts w = [] ->
  exists w',
    try_except
      (_ <- for_deltas E url key mid chunks ending ;
       post E url key (done_payload mid))
      (fun e => try_except (post E url key (error_payload mid (exn_str e)))
                           (fun _ => ret tt)) w = (Ok tt, w') /\
    request_posts mid chunks (posts w').
Proof.
  intros Hw. unfold try_except at 1. unfold bind.
  destruct (for_deltas_posts url key mid chunks ending w)
    as [(w1 & Hr & Hp)|(e & w1 & k & failed & Hr & Hp & Hf)]; rewrite Hr; lazy beta iota.
  - rewrite Hw in Hp. simpl in Hp.
    destruct (post_cases url key (done_payload mid) w1) as [->|[e ->]]; lazy beta iota.
    + eexists. split; [reflexivity|]. simpl. rewrite Hp. constructor.
    + apply (handler_posts url key mid chunks e _ (length chunks) [(done_payload mid, false)]).
      * simpl. by rewrite Hp, firstn_all.
      * eauto.
  - rewrite Hw in Hp. simpl in Hp. by apply (handler_posts url key mid chunks e w1 k failed).
Qed.

Lemma try_except_bind_ok {A B} (m : M A) (k : A -> M B) (h : exn -> M B) a w w1 :
  m w = (Ok a, w1) -> try_except (bind m k) h w = try_except (k a) h w1.
Proof. intros H. unfold try_except, bind. by rewrite H. Qed.

Lemma refusal_as_stream url key mid (h : exn -> M unit) w :
  try_except (_ <- post E url key (chunk_payload mid refusal_msg) ;
              post E url key (done_payload mid)) h w =
  try_except (_ <- for_deltas E url key mid [refusal_msg] None ;
              post E url key (done_payload mid)) h w.
Proof.
  unfold try_except, bind. rewrite for_deltas_cons.
  by destruct (post_cases url key (chunk_payload mid refusal_msg) w) as [->|[e ->]].
Qed.

Lemma plan_query_returns question hist emp com :
  exists plan, agent_planner.plan_query E question hist emp com = Ok plan.
Proof.
  unfold agent_planner.plan_query.
  destruct (agent_planner.plan_attempt E question hist) as [p|[]]; eauto.
Qed.

Lemma run_chatbot_posts req w :
  posts w = [] ->
  match validate_callback_url E (callbackUrl req) with
  | Raise e => run_chatbot E req w = (Raise e, w)
  | Ok url =>
      exists w', run_chatbot E req w = (Ok tt, w') /\
                 request_posts (reqMessageId req) (answer_chunks E req w) (posts w')
  end.
Proof.
  intros Hw. unfold run_chatbot, answer_chunks.
  unfold bind at 1. unfold lift at 1.
  destruct (validate_callback_url E (callbackUrl req)) as [url|e]; [|reflexivity].
  unfold run_chatbot_body.
  destruct (plan_query_returns (question req) (history req) (empId req) (comId req))
    as [plan Hplan].
  rewrite Hplan.
  rewrite (try_except_bind_ok _ _ _ plan w w) by reflexivity.
  destruct (gather_returns E req plan w) as [texts Htexts].
  pose proof (gather_keeps_posts E req plan w) as Hposts.
  destruct (gather E req plan w) as [r w1] eqn:Hgather. simpl in Htexts, Hposts.
  subst r. rewrite Hw in Hposts.
  rewrite (try_except_bind_ok _ _ _ texts w w1) by exact Hgather.
  destruct (bool_decide (texts.1 = "") && bool_decide (texts.2 = "")).
  - rewrite refusal_as_stream. by apply deliver_posts.
  - by apply deliver_posts.
Qed.

End trace.

Lemma delivered_app (ps qs : list (payload * bool)) :
  delivered (ps ++ qs) = delivered ps ++ delivered qs.
Proof. unfold delivered. by rewrite List.filter_app, map_app. Qed.

Lemma delivered_chunk_posts (mid : string) (chunks : list string) :
  delivered (chunk_posts mid chunks) = map (chunk_payload mid) chunks.
Proof.
  unfold delivered, chunk_posts. induction chunks as [|c chunks IH]; [done|].
  simpl. by rewrite IH.
Qed.

Lemma no_terminal_chunk (mid : string) (chunks : list string) :
  List.filter done (map (chunk_payload mid) chunks) = [].
Proof. induction chunks as [|c chunks IH]; [done|]. simpl. exact IH. Qed.

Lemma terminal_is_last (mid : string) (chunks : list string) (term l1 l2 : list payload)
    (p : payload) :
  (length term <= 1)%nat ->
  map (chunk_payload mid) chunks ++ term = l1 ++ p :: l2 ->
  done p = true -> l2 = [].
Proof.
  intros Hlen. revert l1. induction chunks as [|c chunks IH]; intros l1 Heq Hdone.
  - simpl in Heq. subst term. rewrite length_app in Hlen. simpl in Hlen.
    destruct l2; [done|]. simpl in Hlen. lia.
  - destruct l1 as [|x l1]; simpl in Heq.
    + injection Heq as <- _. discriminate.
    + injection Heq as _ Heq. by apply (IH l1).
Qed.

Lemma delivery_properties (mid : string) (chunks : list string) (term : list payload) :
  terminal_events mid term ->
  let l := map (chunk_payload mid) chunks ++ term in
  (terminal_count l <= 1)%nat /\
  terminal_count l = length term /\
  (forall l1 p l2, l = l1 ++ p :: l2 -> done p = true -> l2 = []) /\
  (forall p, p ∈ l -> success p = false -> done p = true).
Proof.
  intros Hterm l. subst l.
  assert (Hlen : (length term <= 1)%nat)
    by (destruct Hterm as [->|[->|[msg ->]]]; simpl; lia).
  assert (Hcount : terminal_count (map (chunk_payload mid) chunks ++ term) = length term).
  { unfold terminal_count. rewrite List.filter_app, no_terminal_chunk. simpl.
    by destruct Hterm as [->|[->|[msg ->]]]. }
  split; [lia|]. split; [done|]. split.
  - intros l1 p l2. by apply terminal_is_last.
  - intros p Hin Hfail. apply elem_of_app in Hin as [Hin|Hin].
    + apply list_elem_of_fmap in Hin as (c & -> & _). discriminate.
    + destruct Hterm as [->|[->|[msg ->]]].
      * by apply elem_of_nil in Hin.
      * apply list_elem_of_singleton in Hin as ->. discriminate.
      * by apply list_elem_of_singleton in Hin as ->.
Qed.

Lemma request_posts_delivered (mid : string) (chunks : list string)
    (ps : list (payload * bool)) :
  request_posts mid chunks ps ->
  exists k term p b,
    delivered ps = map (chunk_payload mid) (take k chunks) ++ term /\
    terminal_events mid term /\
    last ps = Some (p, b) /\ done p = true /\
    length term = (if b then 1%nat else 0%nat).
Proof.
  intros [|k failed msg b Hf].
  - exists (length chunks), [done_payload mid], (done_payload mid), true.
    rewrite delivered_app, delivered_chunk_posts, firstn_all, last_snoc.
    unfold terminal_events. auto 6.
  - exists k, (if b then [error_payload mid msg] else []), (error_payload mid msg), b.
    rewrite !delivered_app, delivered_chunk_posts.
    rewrite (app_assoc (chunk_posts mid (take k chunks)) failed), last_snoc.
    assert (delivered failed = []) as -> by (by destruct Hf as [->|[p ->]]).
    unfold terminal_events. destruct b; simpl; eauto 8.
Qed.

(** C1, as the code has it: the chunk events arrive in the order in which
    the chunks were emitted, at most one terminal event is delivered, no
    event is delivered after it, and an event with [success = false] has
    [done = true]; when the callback URL is valid the call returns, the last
    post attempted is a terminal event, and exactly one terminal event is
    delivered if that post succeeds, none if it fails; when the URL is
    rejected the call raises before any post. *)
Theorem run_chatbot_delivery {json} (E : env json) (req : ChatbotRunRequest) (w : world) :
  posts w = [] ->
  let ps := posts (run_chatbot E req w).2 in
  let mid := reqMessageId req in
  (exists k term,
     delivered ps = map (chunk_payload mid) (take k (answer_chunks E req w)) ++ term /\
     terminal_events mid term) /\
  (terminal_count (delivered ps) <= 1)%nat /\
  (forall l1 p l2, delivered ps = l1 ++ p :: l2 -> done p = true -> l2 = []) /\
  (forall p, p ∈ delivered ps -> success p = false -> done p = true) /\
  (forall url, validate_callback_url E (callbackUrl req) = Ok url ->
     (run_chatbot E req w).1 = Ok tt /\
     exists p b, last ps = Some (p, b) /\ done p = true /\
                 terminal_count (delivered ps) = if b then 1%nat else 0%nat) /\
  (forall e, validate_callback_url E (callbackUrl req) = Raise e ->
     run_chatbot E req w = (Raise e, w)).
Proof.
  intros Hw ps mid. subst ps mid.
  pose proof (run_chatbot_posts E req w Hw) as Hrun.
  destruct (validate_callback_url E (callbackUrl req)) as [url|e].
  - destruct Hrun as (w' & -> & Hshape). simpl.
    destruct (request_posts_delivered _ _ _ Hshape) as (k & term & p & b & -> & Hterm & Hlast & Hdone & Hlen).
    destruct (delivery_properties (reqMessageId req) (take k (answer_chunks E req w)) term Hterm)
      as (Hle & Hcount & Hafter & Hfail).
    split; [eauto|]. split; [done|]. split; [done|]. split; [done|].
    split; [|intros e [=]].
    intros url' _. split; [done|]. exists p, b. by rewrite Hcount, Hlen.
  - rewrite Hrun. simpl. rewrite Hw. unfold delivered; simpl.
    split; [exists 0%nat, []; split; [done|by left]|].
    split; [unfold terminal_count; simpl; lia|].
    split; [by intros [] ? ? ?|]. split; [by intros p Hp%elem_of_nil|].
    split; [intros url' [=]|]. by intros e' [= <-].
Qed.

Lemma run_chatbot_delivery_witness :
  delivered (posts (run_chatbot answer_env req0 w0).2) =
    [chunk_payload "m-1" "A"; chunk_payload "m-1" "B"; done_payload "m-1"] /\
  terminal_count (delivered (posts (run_chatbot answer_env req0 w0).2)) = 1%nat.
Proof.
  destruct (run_chatbot_delivery answer_env req0 w0 eq_refl) as (_ & _ & _ & _ & H & _).
  destruct (H (callbackUrl req0) eq_refl) as (_ & p & b & Hlast & _ & Hcount).
  split; [vm_compute; reflexivity|].
  rewrite Hcount. vm_compute in Hlast. by injection Hlast as <- <-.
Defined.

(** C1 does not hold when the receiver is down: both posts raise, the
    second failure is swallowed, and no terminal event is delivered. *)
Lemma no_terminal_when_receiver_down :
  (run_chatbot deaf_env req0 w0).1 = Ok tt /\
  posts (run_chatbot deaf_env req0 w0).2 =
    [ (chunk_payload "m-1" refusal_msg, false);
      (error_payload "m-1" "receiver unreachable", false) ] /\
  terminal_count (delivered (posts (run_chatbot deaf_env req0 w0).2)) = 0%nat.
Proof. repeat split; vm_compute; reflexivity. Qed.

(** C5, as the code has it: when the gathered relational and semantic texts
    are both empty and the two posts succeed, the request makes exactly two
    posts, the refusal chunk with [done = false, success = true] and then the
    terminal event with [done = true, success = true]. *)
Theorem refusal_when_no_evidence {json} (E : env json) (req : ChatbotRunRequest)
    (w w1 : world) (url : string) (plan : QueryPlan) :
  let mid := reqMessageId req in
  validate_callback_url E (callbackUrl req) = Ok url ->
  agent_planner.plan_query E (question req) (history req) (empId req) (comId req) = Ok plan ->
  gather E req plan w = (Ok ("", ""), w1) ->
  post_with_retry E (posts w) url (callbackKey req) (chunk_payload mid refusal_msg) = Ok tt ->
  post_with_retry E (posts w ++ [(chunk_payload mid refusal_msg, true)]) url
    (callbackKey req) (done_payload mid) = Ok tt ->
  run_chatbot E req w =
    (Ok tt, {| rdb_log := rdb_log w1;
               posts := posts w ++ [ (chunk_payload mid refusal_msg, true);
                                     (done_payload mid, true) ] |}).
Proof.
  intros mid Hurl Hplan Hgather Hpost1 Hpost2. subst mid.
  pose proof (gather_keeps_posts E req plan w) as Hposts.
  rewrite Hgather in Hposts. simpl in Hposts.
  unfold run_chatbot. unfold bind at 1. unfold lift at 1. rewrite Hurl.
  unfold run_chatbot_body. rewrite Hplan.
  rewrite (try_except_bind_ok _ _ _ plan w w) by reflexivity.
  rewrite (try_except_bind_ok _ _ _ ("", "") w w1) by exact Hgather.
  simpl. unfold try_except, bind, post. simpl.
  rewrite Hposts, Hpost1. simpl. rewrite Hpost2. simpl.
  by rewrite <- app_assoc.
Qed.

Lemma refusal_when_no_evidence_witness :
  run_chatbot echo_env req0 w0 =
    (Ok tt, {| rdb_log := [];
               posts := [ (chunk_payload "m-1" refusal_msg, true);
                          (done_payload "m-1", true) ] |}).
Proof.
  apply (refusal_when_no_evidence echo_env req0 w0 w0 (callbackUrl req0)
           (agent_planner.default_plan (question req0))); reflexivity.
Defined.

(** C5 does not hold when the post of the refusal raises: the texts are
    empty, the refusal is not delivered, and the only event delivered is a
    terminal error event. *)
Lemma refusal_not_delivered_when_post_fails :
  gather first_post_fails_env req0 (agent_planner.default_plan (question req0)) w0
    = (Ok ("", ""), w0) /\
  agent_planner.plan_query first_post_fails_env (question req0) (history req0)
    (empId req0) (comId req0) = Ok (agent_planner.default_plan (question req0)) /\
  posts (run_chatbot first_post_fails_env req0 w0).2 =
    [ (chunk_payload "m-1" refusal_msg, false);
      (error_payload "m-1" "receiver unreachable", true) ] /\
  delivered (posts (run_chatbot first_post_fails_env req0 w0).2) =
    [ error_payload "m-1" "receiver unreachable" ].
Proof. repeat split; vm_compute; reflexivity. Qed.

(** C6 at a failing input: the streaming call is established, yields two
    chunks and then raises; the synthesizer falls back to the plain call and
    yields the full answer, so a third chunk event follows and the terminal
    event reports success. *)
Lemma midstream_error_falls_back :
  agent_synthesizer.stream_final_answer midstream_env (question req0) (history req0)
    "" "Article 12" None Rag = (["A"; "B"; "Full answer." +:+ LF], None) /\
  run_chatbot midstream_env req0 w0 =
    (Ok tt, {| rdb_log := [];
               posts := [ (chunk_payload "m-1" "A", true);
                          (chunk_payload "m-1" "B", true);
                          (chunk_payload "m-1" ("Full answer." +:+ LF), true);
                          (done_payload "m-1", true) ] |}).
Proof. split; vm_compute; reflexivity. Qed.
